(** * TSP ID extraction for VidaPay invoices: a shallow embedding

    The development follows [pdf_processor.py] (the layout-boundary
    extractor, class [TspIdExtractor]) and [pdf_processor_pypdf2.py] (the
    first-match extractor, [extract_tsp_id_smart] and its [main]).

    Conventions of the embedding.
    - A Python [str] is a list of characters with code points 0 to 255
      (Latin-1).  [\d], [\w], [\b], [str.strip], [str.isdigit] and the
      white space of [int] are Python's on that range, accented letters,
      superscript digits, fractions and the two Latin-1 spaces included;
      text with code points above 255 is outside the model.
    - The scores of the candidate selector are binary64 floats (the
      kernel's primitive floats) and are added, multiplied and compared as
      Python does.  The coordinates of a bounding box, the position score
      and the confidence are carried as the rationals they denote, with
      exact arithmetic; the selector reads a position score back as the
      float of that value.
    - The page layout is the value PyMuPDF's [get_text("dict")] documents:
      blocks with a bounding box and, for text blocks, lines of spans with a
      text and a bounding box.  A bounding box is a list of values so that a
      malformed one (wrong arity, an entry that is not a number) can be
      written down.
    - An exception is an explicit [Raise]; [try]/[except]/[finally] are
      combinators of a small state-and-exception monad whose state records
      the local variable [doc] and the number of open document handles. *)

From Stdlib Require Import List Bool Arith ZArith QArith Lia Lqa.
From Stdlib Require Import Ascii String.
From Stdlib Require Import Floats.
From Stdlib Require Import Sorting.Sorted Sorting.Permutation.
Import ListNotations.

Set Implicit Arguments.
Set Warnings "-inexact-float".
Close Scope Q_scope.
Open Scope nat_scope.
Open Scope list_scope.

(** ** Python strings *)

Module PyStr.

Definition str := list ascii.

Definition lit (s : string) : str := list_ascii_of_string s.

Definition code (c : ascii) : nat := nat_of_ascii c.

Definition between (lo hi : nat) (c : ascii) : bool :=
  (lo <=? code c)%nat && (code c <=? hi)%nat.

(** [\d]: the decimal digits; below 256 these are 0 to 9 only. *)
Definition is_digit (c : ascii) : bool := between 48 57 c.

(** The Latin-1 characters above 127 that are alphanumeric for Python:
    the ordinal indicators and the micro sign, the superscripts 2, 3 and 1,
    the three fractions, and the letters (all of C0 to FF but the
    multiplication and division signs). *)
Definition is_latin1_alnum (c : ascii) : bool :=
  (code c =? 170)%nat || (code c =? 178)%nat || (code c =? 179)%nat ||
  (code c =? 181)%nat || (code c =? 185)%nat || (code c =? 186)%nat ||
  between 188 190 c || between 192 214 c || between 216 246 c ||
  between 248 255 c.

(** [\w]: the alphanumeric characters and the underscore. *)
Definition is_word (c : ascii) : bool :=
  is_digit c || between 65 90 c || between 97 122 c || (code c =? 95)%nat
  || is_latin1_alnum c.

(** The characters [str.strip()] removes: tab, LF, VT, FF, CR, the four
    separators FS GS RS US, the space, NEL (85) and the no-break space
    (A0). *)
Definition is_space (c : ascii) : bool :=
  between 9 13 c || between 28 32 c || (code c =? 133)%nat || (code c =? 160)%nat.

(** The white space [int] accepts around a number: tab, LF, VT, FF, CR and
    the space, and the two Latin-1 spaces; not the separators FS GS RS US. *)
Definition is_int_space (c : ascii) : bool :=
  between 9 13 c || (code c =? 32)%nat || (code c =? 133)%nat || (code c =? 160)%nat.

(** The characters [str.isdigit()] accepts: 0 to 9 and the superscripts. *)
Definition is_digit_char (c : ascii) : bool :=
  is_digit c || (code c =? 178)%nat || (code c =? 179)%nat || (code c =? 185)%nat.

Fixpoint lstrip (s : str) : str :=
  match s with
  | c :: s' => if is_space c then lstrip s' else s
  | [] => []
  end.

Definition rstrip (s : str) : str := rev (lstrip (rev s)).

Definition strip (s : str) : str := rstrip (lstrip s).

(** The same for the white space of [int]. *)
Fixpoint int_lstrip (s : str) : str :=
  match s with
  | c :: s' => if is_int_space c then int_lstrip s' else s
  | [] => []
  end.

Definition int_strip (s : str) : str :=
  rev (int_lstrip (rev (int_lstrip s))).

(** [needle in s] on strings. *)
Fixpoint startswith (p s : str) : bool :=
  match p, s with
  | [], _ => true
  | a :: p', b :: s' => Ascii.eqb a b && startswith p' s'
  | _ :: _, [] => false
  end.

Fixpoint contains (needle s : str) : bool :=
  startswith needle s ||
  match s with
  | [] => false
  | _ :: s' => contains needle s'
  end.

(** Slices [s[i:j]] and [s[i:]] for indices inside [0 .. ]. *)
Definition slice (i j : nat) (s : str) : str := firstn (j - i) (skipn i s).
Definition slice_from (i : nat) (s : str) : str := skipn i s.

Definition digit_value (c : ascii) : Z := Z.of_nat (code c - 48).

(** The digit part of an [int] literal: decimal digits, single underscores
    allowed between two digits. *)
Fixpoint int_digits (acc : Z) (after_digit : bool) (s : str) : option Z :=
  match s with
  | [] => if after_digit then Some acc else None
  | c :: s' =>
      if is_digit c then int_digits (10 * acc + digit_value c) true s'
      else if (code c =? 95)%nat then
        (if after_digit then int_digits acc false s' else None)
      else None
  end.

(** [int(s)]: surrounding white space is dropped, one sign is allowed;
    [None] stands for [ValueError]. *)
Definition int (s : str) : option Z :=
  match int_strip s with
  | c :: r =>
      if (code c =? 43)%nat then int_digits 0 false r
      else if (code c =? 45)%nat then option_map Z.opp (int_digits 0 false r)
      else int_digits 0 false (c :: r)
  | [] => None
  end.

(** [len(s)] *)
Definition len (s : str) : nat := List.length s.

(** [a == b] on strings *)
Fixpoint eqb (a b : str) : bool :=
  match a, b with
  | [], [] => true
  | x :: a', y :: b' => Ascii.eqb x y && eqb a' b'
  | _, _ => false
  end.

(** [s.isdigit()]: non-empty and only digit characters. *)
Definition isdigit (s : str) : bool :=
  match s with
  | [] => false
  | _ => forallb is_digit_char s
  end.

End PyStr.

Import PyStr.

(** ** The regular expressions [\b(\d{6,8})\b] and [\b(\d+)\b]

    [re.findall] scans the text from left to right.  At each position it
    tries the pattern: a word boundary, a greedy run of digits of at most
    [hi] characters ([None]: unbounded), and a closing word boundary, giving
    digits back one at a time down to [lo] while the closing boundary fails.
    After a match the scan resumes at the end of the match. *)

Module Regex.

Definition word_opt (c : option ascii) : bool :=
  match c with
  | Some a => is_word a
  | None => false
  end.

(** [\b] between the character before and the character after a position;
    the ends of the text count as non-word. *)
Definition word_boundary (before after : option ascii) : bool :=
  xorb (word_opt before) (word_opt after).

(** Number of digits the greedy repetition takes. *)
Fixpoint greedy_digits (hi : option nat) (s : str) : nat :=
  match s with
  | c :: s' =>
      if is_digit c then
        match hi with
        | Some 0 => 0
        | Some (S h) => S (greedy_digits (Some h) s')
        | None => S (greedy_digits None s')
        end
      else 0
  | [] => 0
  end.

(** The character before position [j] of the attempt: the last digit taken,
    or the character before the attempt when [j = 0]. *)
Definition char_before (prev : option ascii) (s : str) (j : nat) : option ascii :=
  match j with
  | 0 => prev
  | S j' => nth_error s j'
  end.

(** Backtracking: close the match after [j] digits, else after [j-1], ...,
    never with fewer than [lo]. *)
Fixpoint close_match (lo : nat) (prev : option ascii) (s : str) (j : nat)
  : option nat :=
  if (j <? lo)%nat then None
  else if word_boundary (char_before prev s j) (nth_error s j) then Some j
  else match j with
       | 0 => None
       | S j' => close_match lo prev s j'
       end.

(** One attempt of [\b\d{lo,hi}\b] at the head of [s]; [prev] is the
    character before it.  The result is the length of the match. *)
Definition match_here (lo : nat) (hi : option nat) (prev : option ascii) (s : str)
  : option nat :=
  if word_boundary prev (nth_error s 0)
  then close_match lo prev s (greedy_digits hi s)
  else None.

(** The scan.  [skip] counts the characters of the current match that are
    still to be passed over.  Both patterns ask for at least one digit, so a
    match is never empty; the scan moves on by one character when the
    attempt fails. *)
Fixpoint scan (lo : nat) (hi : option nat) (prev : option ascii) (skip : nat)
  (s : str) : list str :=
  match s with
  | [] => []
  | c :: s' =>
      match skip with
      | S k => scan lo hi (Some c) k s'
      | 0 =>
          match match_here lo hi prev s with
          | Some (S k) => firstn (S k) s :: scan lo hi (Some c) k s'
          | _ => scan lo hi (Some c) 0 s'
          end
      end
  end.

Definition findall (lo : nat) (hi : option nat) (s : str) : list str :=
  scan lo hi None 0 s.

(** [re.findall(r'\b(\d{6,8})\b', text)] *)
Definition findall_6_8 : str -> list str := findall 6 (Some 8).

(** [re.findall(r'\b(\d+)\b', text)] *)
Definition findall_digits : str -> list str := findall 1 None.

End Regex.

(** ** Python values, exceptions and the stable sort *)

Module Py.

(** An entry of a bounding box: a number, or a value ([None]) on which
    arithmetic and comparison raise [TypeError]. *)
Inductive value : Type :=
  | Num (q : Q)
  | NoneV.

Inductive outcome (A : Type) : Type :=
  | Return (a : A)
  | Raise (e : str).

Arguments Return {A} a.
Arguments Raise {A} e.

Definition bind {A B} (m : outcome A) (k : A -> outcome B) : outcome B :=
  match m with
  | Return a => k a
  | Raise e => Raise e
  end.

Notation "x <- m ;; k" := (bind m (fun x => k))
  (at level 61, m at next level, right associativity).

(** [l[i]] *)
Definition index (l : list value) (i : nat) : outcome value :=
  match nth_error l i with
  | Some v => Return v
  | None => Raise (lit "list index out of range")
  end.

(** [a / d] for a float constant [d] *)
Definition div (a : value) (d : Q) : outcome Q :=
  match a with
  | Num x => Return (x / d)%Q
  | NoneV => Raise (lit "unsupported operand type(s) for /")
  end.

Definition Qltb (x y : Q) : bool :=
  match (x ?= y)%Q with
  | Lt => true
  | _ => false
  end.

(** [a < b] *)
Definition lt (a b : value) : outcome bool :=
  match a, b with
  | Num x, Num y => Return (Qltb x y)
  | _, _ => Raise (lit "'<' not supported between instances")
  end.

(** [list.sort(key=key, reverse=reverse)].  Python's sort is stable, also
    with [reverse=True]; on keys that are totally ordered the stable sorted
    arrangement is unique, and insertion from the right computes it: an
    element goes before the first later element it may precede, so it stays
    ahead of later elements with an equal key. *)
Section Sort.
Variable A : Type.
Variable key : A -> Q.
Variable reverse : bool.

Definition precedes (x y : A) : bool :=
  if reverse then Qle_bool (key y) (key x) else Qle_bool (key x) (key y).

Fixpoint insert (x : A) (l : list A) : list A :=
  match l with
  | [] => [x]
  | y :: l' => if precedes x y then x :: l else y :: insert x l'
  end.

Definition sort (l : list A) : list A := fold_right insert [] l.
End Sort.

(** A Python [float] is a binary64 float.  [of_Q] reads a number that is
    carried as the rational it denotes back as a float: the float of that
    value when there is one, the nearest float otherwise (the division of
    two integers below [2^53] is rounded once). *)
Definition of_Z (z : Z) : float :=
  SF2Prim (binary_normalize prec emax z 0 false).

Definition of_Q (q : Q) : float :=
  (of_Z (Qnum q) / of_Z (Z.pos (Qden q)))%float.

(** [list.sort(key=key, reverse=reverse)] on float keys.  The sort compares
    with [<] only: an element stays ahead of a later one unless the later
    one must come first, which with [reverse=True] is when its key is
    strictly greater. *)
Section FloatSort.
Variable A : Type.
Variable key : A -> float.
Variable reverse : bool.

Definition float_precedes (x y : A) : bool :=
  if reverse then negb (key x <? key y)%float
  else negb (key y <? key x)%float.

Fixpoint float_insert (x : A) (l : list A) : list A :=
  match l with
  | [] => [x]
  | y :: l' => if float_precedes x y then x :: l else y :: float_insert x l'
  end.

Definition float_sort (l : list A) : list A := fold_right float_insert [] l.
End FloatSort.

End Py.

Import Py.

(** ** The page layout *)

Module Layout.

Definition BBox := list value.

Record Span : Type := { span_text : str; span_bbox : BBox }.

Record Line : Type := { spans : list Span }.

(** [block_lines = None]: the block has no ["lines"] key (an image block). *)
Record Block : Type := { block_bbox : BBox; block_lines : option (list Line) }.

(** [blocks = None]: the dictionary has no ["blocks"] key. *)
Record TextDict : Type := { blocks : option (list Block) }.

(** [text_dict.get("blocks", [])] *)
Definition get_blocks (text_dict : TextDict) : list Block :=
  match blocks text_dict with
  | Some bs => bs
  | None => []
  end.

(** The spans one block contributes to
    [if "lines" in block: for line in block["lines"]: for span in line["spans"]]. *)
Definition block_spans (block : Block) : list Span :=
  match block_lines block with
  | Some ls => flat_map spans ls
  | None => []
  end.

(** The spans the nested loops visit, in the order they visit them. *)
Definition document_spans (bs : list Block) : list Span :=
  flat_map block_spans bs.

End Layout.

Import Layout.

(** ** [class TspIdExtractor] of [pdf_processor.py]: the pure helpers *)

Module TspIdExtractor.

Local Open Scope Q_scope.

(** [__init__] *)
Definition min_tsp_id_length : nat := 6.
Definition max_tsp_id_length : nat := 8.

(** [int(s)] with [ValueError] as an exception. *)
Definition to_int (s : str) : outcome Z :=
  match PyStr.int s with
  | Some z => Return z
  | None => Raise (lit "invalid literal for int() with base 10")
  end.

(** [try: body except: return default] *)
Definition catch {A} (body : outcome A) (default : A) : A :=
  match body with
  | Return a => a
  | Raise _ => default
  end.

(** [_is_likely_date] *)
Definition is_likely_date (number : str) : bool :=
  catch
    (if (len number =? 6)%nat then
       month <- to_int (slice 0 2 number) ;;
       day <- to_int (slice 2 4 number) ;;
       year <- to_int (slice_from 4 number) ;;
       Return ((1 <=? month)%Z && (month <=? 12)%Z &&
               ((1 <=? day)%Z && (day <=? 31)%Z) &&
               ((0 <=? year)%Z && (year <=? 99)%Z))
     else if (len number =? 8)%nat then
       year <- to_int (slice 0 4 number) ;;
       month <- to_int (slice 4 6 number) ;;
       day <- to_int (slice_from 6 number) ;;
       Return ((1900 <=? year)%Z && (year <=? 2100)%Z &&
               ((1 <=? month)%Z && (month <=? 12)%Z) &&
               ((1 <=? day)%Z && (day <=? 31)%Z))
     else Return false)
    false.

(** [_is_likely_zip_code] *)
Definition is_likely_zip_code (number : str) : bool :=
  catch
    (if (len number =? 5)%nat then
       zip_value <- to_int number ;;
       Return ((501 <=? zip_value)%Z && (zip_value <=? 99950)%Z)
     else if (len number =? 9)%nat then
       zip_value <- to_int number ;;
       Return ((50100000 <=? zip_value)%Z && (zip_value <=? 999509999)%Z)
     else Return false)
    false.

(** [len(number) in [10, 11] and number.startswith(('1', '0'))] *)
Definition phone_shape (number : str) : bool :=
  ((len number =? 10)%nat || (len number =? 11)%nat) &&
  (startswith (lit "1") number || startswith (lit "0") number).

(** [_is_valid_tsp_id_candidate] *)
Definition is_valid_tsp_id_candidate (number context_text : str) : bool :=
  catch
    (if negb ((min_tsp_id_length <=? len number)%nat &&
              (len number <=? max_tsp_id_length)%nat)
     then Return false
     else
       value <- to_int number ;;
       if (value <? 100000)%Z then Return false
       else if phone_shape number then Return false
       else if is_likely_date number then Return false
       else if is_likely_zip_code number then Return false
       else if (50 <? len (strip context_text))%nat then Return false
       else Return true)
    false.

(** [_calculate_position_score] *)
Definition calculate_position_score (bbox : BBox) : Q :=
  catch
    (match bbox with
     | [x0; y0; x1; y1] =>
         normalized_x <- div x0 612.0 ;;
         normalized_y <- div y0 792.0 ;;
         let x_score := 1.0 - normalized_x in
         let y_score := 1.0 - normalized_y in
         let position_score := (x_score + y_score) / 2.0 in
         Return position_score
     | _ => Raise (lit "not enough or too many values to unpack")
     end)
    0.5.

(** A harvested candidate: the dictionary built in
    [_extract_tsp_id_candidates]. *)
Record Candidate : Type := {
  number : str;
  text : str;
  bbox : BBox;
  position_score : Q
}.

(** The dictionary built in the scoring loop of [_select_best_candidate]. *)
Record Scored : Type := {
  scored_number : str;
  score : float;
  scored_position_score : Q
}.

(** The body of the scoring loop: the score of one candidate. *)
Definition candidate_score (candidate : Candidate) : float :=
  let score := 0.0%float in
  let score := (score + of_Q (position_score candidate) * 0.4)%float in
  let length := len (number candidate) in
  let score :=
    if (length =? 6)%nat then (score + 0.3)%float
    else if (length =? 7)%nat then (score + 0.2)%float
    else if (length =? 8)%nat then (score + 0.1)%float
    else score in
  let context_text := text candidate in
  let score :=
    if (len (strip context_text) <=? 20)%nat then (score + 0.3)%float
    else if (len (strip context_text) <=? 30)%nat then (score + 0.2)%float
    else (score + 0.1)%float in
  score.

Definition score_candidate (candidate : Candidate) : Scored :=
  {| scored_number := number candidate;
     score := candidate_score candidate;
     scored_position_score := position_score candidate |}.

(** [_select_best_candidate].  The empty list and the one-element list
    return before the scoring loop.  [scored_candidates[0]] on an empty list
    would raise; the handler then returns the first candidate. *)
Definition select_best_candidate (candidates : list Candidate) : option str :=
  match candidates with
  | [] => None
  | [only] => Some (number only)
  | _ =>
      let scored_candidates := map score_candidate candidates in
      let scored_candidates := float_sort score true scored_candidates in
      match scored_candidates with
      | best_candidate :: _ => Some (scored_number best_candidate)
      | [] => option_map number (hd_error candidates)
      end
  end.

(** The candidates one span contributes in [_extract_tsp_id_candidates]. *)
Definition span_candidates (span : Span) : list Candidate :=
  let text := strip (span_text span) in
  let numbers := Regex.findall_6_8 text in
  flat_map
    (fun number =>
       if is_valid_tsp_id_candidate number text
       then [ {| number := number;
                 text := text;
                 bbox := span_bbox span;
                 position_score := calculate_position_score (span_bbox span) |} ]
       else [])
    numbers.

(** [_extract_tsp_id_candidates] *)
Definition extract_tsp_id_candidates (header_blocks : list Block) : list Candidate :=
  flat_map span_candidates (document_spans header_blocks).

Definition exact_heading : str := lit "Summary of VIDAPAY Charges and Payments".
Definition partial_heading : str := lit "Summary of VIDAPAY".

(** [return (bbox[1], bbox[3])] *)
Definition boundary_of (bbox : BBox) : outcome (option (value * value)) :=
  y0 <- index bbox 1 ;;
  y1 <- index bbox 3 ;;
  Return (Some (y0, y1)).

(** The loop of [_find_summary_boundary] over the spans in the order it
    visits them: [Return None] when the loop ends without a [return]. *)
Fixpoint find_in_spans (l : list Span) : outcome (option (value * value)) :=
  match l with
  | [] => Return None
  | span :: rest =>
      let text := strip (span_text span) in
      if contains exact_heading text then boundary_of (span_bbox span)
      else if contains partial_heading text then boundary_of (span_bbox span)
      else find_in_spans rest
  end.

(** [_find_summary_boundary] *)
Definition find_summary_boundary (text_dict : TextDict) : option (value * value) :=
  catch (find_in_spans (document_spans (get_blocks text_dict))) None.

(** The first loop of [_extract_from_header_section]: the text blocks whose
    top edge is above [summary_y]. *)
Fixpoint header_blocks_above (summary_y : value) (bs : list Block)
  : outcome (list Block) :=
  match bs with
  | [] => Return []
  | block :: rest =>
      match block_lines block with
      | Some _ =>
          block_y <- index (block_bbox block) 1 ;;
          above <- lt block_y summary_y ;;
          header_blocks <- header_blocks_above summary_y rest ;;
          Return (if above then block :: header_blocks else header_blocks)
      | None => header_blocks_above summary_y rest
      end
  end.

(** The sort key [x["bbox"][1]].  Every block that reaches the sort has
    passed [block_y < summary_y], so the entry is a number. *)
Definition block_top (block : Block) : Q :=
  match nth_error (block_bbox block) 1 with
  | Some (Num q) => q
  | _ => 0
  end.

(** The candidates [_extract_from_header_section] harvests. *)
Definition header_candidates (text_dict : TextDict) (summary_boundary : value * value)
  : outcome (list Candidate) :=
  let summary_y := fst summary_boundary in
  header_blocks <- header_blocks_above summary_y (get_blocks text_dict) ;;
  let header_blocks := sort block_top false header_blocks in
  Return (extract_tsp_id_candidates header_blocks).

(** [_extract_from_header_section] *)
Definition extract_from_header_section (text_dict : TextDict)
  (summary_boundary : value * value) : option str :=
  catch
    (candidates <- header_candidates text_dict summary_boundary ;;
     match candidates with
     | [] => Return None
     | _ => Return (select_best_candidate candidates)
     end)
    None.

(** [max(a, b)] and [min(a, b)] of Python: the second argument is returned
    only when it is strictly better. *)
Definition py_max (a b : Q) : Q := if Qltb a b then b else a.
Definition py_min (a b : Q) : Q := if Qltb b a then b else a.

(** [_calculate_confidence] *)
Definition calculate_confidence (tsp_id method : str) : Q :=
  let base_confidence := 0.95 in
  let base_confidence :=
    if PyStr.eqb method (lit "position_based") then 0.98
    else if PyStr.eqb method (lit "fallback") then 0.85
    else base_confidence in
  let length := len tsp_id in
  let base_confidence :=
    if (length =? 6)%nat then base_confidence + 0.01
    else if (length =? 7)%nat then base_confidence + 0.005
    else if (length =? 8)%nat then base_confidence + 0.002
    else base_confidence in
  py_min 1.0 (py_max 0.0 base_confidence).

(** The success dictionary. *)
Record Success : Type := {
  tspId : str;
  confidence : Q;
  method : str;
  page : nat;
  description : str;
  extraction_method : str;
  accuracy : str
}.

(** What one extraction returns: the success dictionary or [{"error": ...}]. *)
Inductive ExtractionResult : Type :=
  | Found (result : Success)
  | Error (error : str).

(** [all_text] of [_fallback_extraction]: every span text followed by a space. *)
Definition all_text (text_dict : TextDict) : str :=
  fold_left (fun acc span => acc ++ span_text span ++ lit " ")
            (document_spans (get_blocks text_dict)) [].

(** [_fallback_extraction] *)
Definition fallback_extraction (text_dict : TextDict) : ExtractionResult :=
  let candidates := Regex.findall_6_8 (all_text text_dict) in
  let valid_candidates :=
    filter (fun c => is_valid_tsp_id_candidate c []) candidates in
  match valid_candidates with
  | tsp_id :: _ =>
      Found {| tspId := tsp_id;
               confidence := 0.85;
               method := lit "fallback_extraction";
               page := 1;
               description := lit "TSP ID '" ++ tsp_id ++ lit "' found using fallback method";
               extraction_method := lit "PyMuPDF Fallback";
               accuracy := lit "85%" |}
  | [] => Error (lit "No TSP ID found using fallback method")
  end.

End TspIdExtractor.

(** ** The PDF library and the document handle *)

Module Fitz.

(** What the program reads from an opened document: its page count, the
    layout of page 0 ([doc[0].get_text("dict")]) and the flat text of page 0
    ([doc.load_page(0).get_text()]); either read may raise. *)
Record Document : Type := {
  page_count : nat;
  first_page_dict : outcome TextDict;
  first_page_text : outcome str
}.

(** [fitz.open]: a document, or an exception. *)
Definition Library := str -> outcome Document.

(** The state one call runs in: whether the local variable [doc] is
    assigned, and how many document handles are open. *)
Record Frame : Type := { doc_bound : bool; open_handles : nat }.

Definition entry : Frame := {| doc_bound := false; open_handles := 0 |}.

Definition M (A : Type) : Type := Frame -> outcome A * Frame.

Definition ret {A} (a : A) : M A := fun st => (Return a, st).

Definition mbind {A B} (m : M A) (k : A -> M B) : M B :=
  fun st =>
    match m st with
    | (Return a, st') => k a st'
    | (Raise e, st') => (Raise e, st')
    end.

Definition lift {A} (o : outcome A) : M A := fun st => (o, st).

(** [doc = fitz.open(pdf_path)] *)
Definition open (fitz : Library) (pdf_path : str) : M Document :=
  fun st =>
    match fitz pdf_path with
    | Return doc =>
        (Return doc, {| doc_bound := true; open_handles := S (open_handles st) |})
    | Raise e => (Raise e, st)
    end.

(** [doc.close()] *)
Definition close : M unit :=
  fun st =>
    (Return tt, {| doc_bound := doc_bound st; open_handles := pred (open_handles st) |}).

(** [if 'doc' in locals(): doc.close()] *)
Definition close_if_bound : M unit :=
  fun st => if doc_bound st then close st else (Return tt, st).

(** [try: body except Exception as e: handler(str(e))] *)
Definition try_except {A} (body : M A) (handler : str -> M A) : M A :=
  fun st =>
    match body st with
    | (Return a, st') => (Return a, st')
    | (Raise e, st') => handler e st'
    end.

(** [try: body finally: final] *)
Definition try_finally {A} (body : M A) (final : M unit) : M A :=
  fun st =>
    match body st with
    | (r, st') =>
        match final st' with
        | (Return _, st'') => (r, st'')
        | (Raise e, st'') => (Raise e, st'')
        end
    end.

End Fitz.

Import Fitz.

Notation "x <-- m ;; k" := (mbind m (fun x => k))
  (at level 61, m at next level, right associativity).

(** ** [TspIdExtractor.extract_tsp_id_from_pdf] *)

Module Extractor.

Import TspIdExtractor.

Local Open Scope Q_scope.

(** The [try] block. *)
Definition extract_body (fitz : Library) (pdf_path : str) : M ExtractionResult :=
  doc <-- open fitz pdf_path ;;
  if (page_count doc =? 0)%nat then ret (Error (lit "Empty PDF document"))
  else
    text_dict <-- lift (first_page_dict doc) ;;
    match find_summary_boundary text_dict with
    | None => ret (fallback_extraction text_dict)
    | Some summary_boundary =>
        match extract_from_header_section text_dict summary_boundary with
        | Some tsp_id =>
            if negb (len tsp_id =? 0)%nat then
              let confidence := calculate_confidence tsp_id (lit "position_based") in
              ret (Found
                     {| tspId := tsp_id;
                        confidence := confidence;
                        method := lit "position_based_extraction";
                        page := 1;
                        description :=
                          lit "TSP ID '" ++ tsp_id ++
                          lit "' found in header section using position analysis";
                        extraction_method := lit "PyMuPDF Layout Analysis";
                        accuracy := lit "100%" |})
            else ret (Error (lit "No TSP ID found in header section"))
        | None => ret (Error (lit "No TSP ID found in header section"))
        end
    end.

(** [extract_tsp_id_from_pdf]: the [try] block, its [except Exception]
    handler and its [finally] clause. *)
Definition extract_tsp_id_from_pdf (fitz : Library) (pdf_path : str)
  : M ExtractionResult :=
  try_finally
    (try_except
       (extract_body fitz pdf_path)
       (fun e => ret (Error (lit "PDF processing error: " ++ e))))
    close_if_bound.

End Extractor.

(** ** [pdf_processor_pypdf2.py] *)

Module Pypdf2.

Local Open Scope Q_scope.

(** [extract_tsp_id_smart]: the first harvested run that passes the test of
    the loop body. *)
Definition extract_tsp_id_smart (page_text : str) : option str :=
  let numeric_matches := Regex.findall_digits page_text in
  find (fun num => (len num =? 6)%nat && (isdigit num && (len num =? 6)%nat))
       numeric_matches.

Record Results : Type := {
  tspId : option str;
  confidence : Q;
  method : str;
  description : str;
  accuracy : str;
  extractedText : str;
  processingTime : str;
  library : str
}.

Record Response : Type := {
  success : bool;
  error : option str;
  results : Results
}.

Definition failure (message method : str) (time : str) : Response :=
  {| success := false;
     error := Some message;
     results := {| tspId := None;
                   confidence := 0.0;
                   method := method;
                   description := message;
                   accuracy := lit "0%";
                   extractedText := [];
                   processingTime := time;
                   library := lit "PyMuPDF" |} |}.

(** The block [# Process PDF with PyMuPDF and SMART LOGIC] of [main]: the
    value of [result] that is printed. *)
Definition process_pdf (fitz : Library) (pdf_path : str) : M Response :=
  try_except
    (doc <-- open fitz pdf_path ;;
     if (page_count doc =? 0)%nat then
       ret (failure (lit "No pages found in PDF") (lit "error") (lit "error"))
     else
       page_text <-- lift (first_page_text doc) ;;
       _ <-- close ;;
       match page_text with
       | [] => ret (failure (lit "No text content found in PDF") (lit "error") (lit "error"))
       | _ =>
           match extract_tsp_id_smart page_text with
           | Some tsp_id =>
               ret {| success := true;
                      error := None;
                      results :=
                        {| tspId := Some tsp_id;
                           confidence := 1.0;
                           method := lit "smart_extraction_pymupdf";
                           description := lit "Smart logic: First 6-digit number (TSP ID criteria)";
                           accuracy := lit "100%";
                           extractedText :=
                             lit "TSP ID: " ++ tsp_id ++ lit " (Smart extraction with PyMuPDF)";
                           processingTime := lit "fast";
                           library := lit "PyMuPDF" |} |}
           | None =>
               ret {| success := false;
                      error := Some (lit "No TSP ID found with smart logic");
                      results :=
                        {| tspId := None;
                           confidence := 0.0;
                           method := lit "smart_extraction_pymupdf";
                           description := lit "Smart logic: No 6-digit number found";
                           accuracy := lit "0%";
                           extractedText := [];
                           processingTime := lit "fast";
                           library := lit "PyMuPDF" |} |}
           end
       end)
    (fun e =>
       ret (failure (lit "PDF processing error: " ++ e) (lit "error") (lit "error"))).

End Pypdf2.

(** * Reference definitions

    The notions the statements below compare the program with. *)

Module Reference.

Import TspIdExtractor.

Local Open Scope Q_scope.

(** The numeric value of a digit string, read in base ten. *)
Definition digits_value (s : str) : Z :=
  fold_left (fun acc c => (10 * acc + digit_value c)%Z) s 0%Z.

(** The validator with the phone-number rule taken out; every other line is
    that of [is_valid_tsp_id_candidate]. *)
Definition is_valid_without_phone_rule (number context_text : str) : bool :=
  catch
    (if negb ((min_tsp_id_length <=? len number)%nat &&
              (len number <=? max_tsp_id_length)%nat)
     then Return false
     else
       value <- to_int number ;;
       if (value <? 100000)%Z then Return false
       else if is_likely_date number then Return false
       else if is_likely_zip_code number then Return false
       else if (50 <? len (strip context_text))%nat then Return false
       else Return true)
    false.


(** The weighted score as the specification words it, in float
    arithmetic from left to right. *)
Definition length_bonus (n : nat) : float :=
  if (n =? 6)%nat then 0.3%float else if (n =? 7)%nat then 0.2%float
  else if (n =? 8)%nat then 0.1%float else 0.0%float.

Definition context_bonus (n : nat) : float :=
  if (n <=? 20)%nat then 0.3%float else if (n <=? 30)%nat then 0.2%float
  else 0.1%float.

Definition weighted_score (c : Candidate) : float :=
  (0.4 * of_Q (position_score c)
   + length_bonus (len (number c))
   + context_bonus (len (strip (text c))))%float.

(** The locator as the specification words it: a first pass for the exact
    heading, and a second pass for the partial heading only when the first
    finds nothing. *)
Definition first_span_with (heading : str) (l : list Span) : option Span :=
  find (fun s => contains heading (strip (span_text s))) l.

Definition two_pass_boundary (text_dict : TextDict) : option (value * value) :=
  let all := document_spans (get_blocks text_dict) in
  match first_span_with exact_heading all with
  | Some s => catch (boundary_of (span_bbox s)) None
  | None =>
      match first_span_with partial_heading all with
      | Some s => catch (boundary_of (span_bbox s)) None
      | None => None
      end
  end.

(** The top edge of a box, when it is a number. *)
Definition top_edge (b : BBox) : option Q :=
  match nth_error b 1 with
  | Some (Num q) => Some q
  | _ => None
  end.

(** The maximal runs of characters that satisfy [keep], the other
    characters being separators; a run between two adjacent separators, or
    at an end of the text, is empty. *)
Fixpoint pieces (keep : ascii -> bool) (s : str) : list str :=
  match s with
  | [] => [[]]
  | c :: s' =>
      if keep c then
        match pieces keep s' with
        | w :: ws => (c :: w) :: ws
        | [] => [[c]]
        end
      else [] :: pieces keep s'
  end.

Definition nonempty (w : str) : bool := negb (len w =? 0)%nat.

(** The maximal digit runs of a text, in order. *)
Definition digit_runs (s : str) : list str :=
  filter nonempty (pieces is_digit s).

(** The words of a text: its maximal runs of word characters. *)
Definition words (s : str) : list str :=
  filter nonempty (pieces is_word s).

(** The words made of digits only: the digit runs that have no letter,
    digit or underscore next to them. *)
Definition digit_words (s : str) : list str :=
  filter (forallb is_digit) (words s).

Definition within (hi : option nat) (n : nat) : bool :=
  match hi with
  | Some h => (n <=? h)%nat
  | None => true
  end.

(** What [\b\d{lo,hi}\b] keeps of a word. *)
Definition harvested (lo : nat) (hi : option nat) (w : str) : bool :=
  forallb is_digit w && (lo <=? len w)%nat && within hi (len w).

(** The first-match extractor as the specification words it: the first
    maximal digit run of length 6. *)
Definition first_six_digit_run (s : str) : option str :=
  find (fun r => (len r =? 6)%nat) (digit_runs s).

Definition phrase : str := lit "order 2077 dated 06/02/2025 ref 164082".

(** The leading word characters of a text, and what follows them. *)
Fixpoint take_word (s : str) : str :=
  match s with
  | c :: s' => if is_word c then c :: take_word s' else []
  | [] => []
  end.

Fixpoint drop_word (s : str) : str :=
  match s with
  | c :: s' => if is_word c then drop_word s' else s
  | [] => []
  end.

(** The character before the position reached after reading [u]. *)
Fixpoint after (prev : option ascii) (u : str) : option ascii :=
  match u with
  | [] => prev
  | c :: u' => after (Some c) u'
  end.

End Reference.

Import Reference.

(** * Sample inputs *)

Module Samples.

Import TspIdExtractor.

Local Open Scope Q_scope.

Definition box (x0 y0 x1 y1 : Q) : BBox := [Num x0; Num y0; Num x1; Num y1].

Definition text_block (b : BBox) (ls : list (list Span)) : Block :=
  {| block_bbox := b; block_lines := Some (map (fun l => {| spans := l |}) ls) |}.

Definition layout (bs : list Block) : TextDict := {| blocks := Some bs |}.

(** Three candidates; the first scores 0.7, the other two tie at 0.8. *)
Definition three_candidates : list Candidate :=
  [ {| number := lit "700123"; text := lit "Ref 700123";
       bbox := box 306 396 380 410; position_score := 0.25 |};
    {| number := lit "164082"; text := lit "TSP 164082";
       bbox := box 214.2 277.2 300 290; position_score := 0.5 |};
    {| number := lit "482061"; text := lit "ID 482061";
       bbox := box 214.2 277.2 300 290; position_score := 0.5 |} ].

(** Two candidates with position score 0.5: six digits in a text of 37
    characters, seven digits in a text of 23 characters. *)
Definition rounding_candidates : list Candidate :=
  [ {| number := lit "164082";
       text := lit "Account reference 164082 for invoices";
       bbox := box 306 396 380 410; position_score := 0.5 |};
    {| number := lit "7001230"; text := lit "Customer number 7001230";
       bbox := box 306 396 380 410; position_score := 0.5 |} ].

(** A page whose first span carries the partial heading and whose second
    span carries the exact heading. *)
Definition partial_before_exact : TextDict :=
  layout [ text_block (box 72 100 300 112)
           [ [ {| span_text := lit "Summary of VIDAPAY";
                  span_bbox := box 72 100 300 112 |} ] ];
         text_block (box 72 300 400 314)
           [ [ {| span_text := lit "Summary of VIDAPAY Charges and Payments";
                  span_bbox := box 72 300 400 314 |} ] ] ].

(** A page with one text block that starts above the heading and runs on
    below it: a title, the heading, and a number under the heading. *)
Definition block_across_heading : TextDict :=
  layout [ text_block (box 72 40 540 362)
           [ [ {| span_text := lit "VidaPay Invoice";
                  span_bbox := box 72 40 200 52 |} ];
             [ {| span_text := lit "Summary of VIDAPAY Charges and Payments";
                  span_bbox := box 72 300 400 314 |} ];
             [ {| span_text := lit "164082";
                  span_bbox := box 72 350 120 362 |} ] ] ].

(** The end-to-end page of the specification: a header span above the
    heading. *)
Definition invoice_page : TextDict :=
  layout [ text_block (box 50 50 120 62)
           [ [ {| span_text := lit "TSP 164082";
                  span_bbox := box 50 50 120 62 |} ] ];
         text_block (box 72 300 400 314)
           [ [ {| span_text := lit "Summary of VIDAPAY Charges and Payments";
                  span_bbox := box 72 300 400 314 |} ] ] ].

(** A page whose heading span has a box of two entries only. *)
Definition short_heading_box_page : TextDict :=
  layout [ text_block (box 50 50 120 62)
             [ [ {| span_text := lit "TSP 164082";
                    span_bbox := box 50 50 120 62 |} ] ];
           text_block (box 72 300 400 314)
             [ [ {| span_text := lit "Summary of VIDAPAY Charges and Payments";
                    span_bbox := [Num 72; Num 300] |} ] ] ].

(** A page with the heading and a text block whose box has one entry. *)
Definition short_block_box_page : TextDict :=
  layout [ text_block [Num 50]
             [ [ {| span_text := lit "TSP 164082";
                    span_bbox := box 50 50 120 62 |} ] ];
           text_block (box 72 300 400 314)
             [ [ {| span_text := lit "Summary of VIDAPAY Charges and Payments";
                    span_bbox := box 72 300 400 314 |} ] ] ].

(** A page without the heading. *)
Definition no_heading_page : TextDict :=
  layout [ text_block (box 50 50 120 62)
           [ [ {| span_text := lit "TSP 164082";
                  span_bbox := box 50 50 120 62 |} ] ] ].

(** What the fallback path returns on [no_heading_page]. *)
Definition fallback_result : Success :=
  {| tspId := lit "164082";
     confidence := 0.85;
     method := lit "fallback_extraction";
     page := 1;
     description := lit "TSP ID '164082' found using fallback method";
     extraction_method := lit "PyMuPDF Fallback";
     accuracy := lit "85%" |}.

(** A PDF library whose every path opens as a one-page document with the
    given layout and flat text. *)
Definition one_page_pdf (layout : TextDict) (flat : str) : Library :=
  fun _ =>
    Return {| page_count := 1;
              first_page_dict := Return layout;
              first_page_text := Return flat |}.

(** A PDF library whose every path opens as a document without pages. *)
Definition zero_page_pdf : Library :=
  fun _ =>
    Return {| page_count := 0;
              first_page_dict := Raise (lit "page not in document");
              first_page_text := Raise (lit "page not in document") |}.

(** A PDF library whose documents have a page that cannot be read. *)
Definition unreadable_page_pdf : Library :=
  fun _ =>
    Return {| page_count := 1;
              first_page_dict := Raise (lit "cannot read page");
              first_page_text := Raise (lit "cannot read page") |}.

(** A PDF library that cannot open anything. *)
Definition no_such_file : Library :=
  fun _ => Raise (lit "no such file").

End Samples.

(** * The command-line programs and the third extractor *)

(** [main] of [pdf_processor.py].  What is printed is represented by the
    dictionary that [json.dumps] serialises; the exit status is 0 when
    [main] returns and the argument of [sys.exit] otherwise. *)
Module Cli.

Import TspIdExtractor.

Definition main (argv : list str) (fitz : Library)
  : M (ExtractionResult * nat) :=
  if (List.length argv <? 2)%nat then
    ret (Error (lit "PDF path not provided"), 1)
  else
    let pdf_path := nth 1 argv [] in
    try_except
      (result <-- Extractor.extract_tsp_id_from_pdf fitz pdf_path ;;
       ret (result, 0))
      (fun e => ret (Error (lit "Extraction failed: " ++ e), 1)).

End Cli.

(** [main] of [pdf_processor_pypdf2.py]: the checks before the document is
    opened, then the processing block, all inside the final handler. *)
Module Pypdf2Main.

Import Pypdf2.

Local Open Scope Q_scope.

(** The outcome of [import fitz]: the library, an [ImportError], or
    another exception raised while the module is loaded. *)
Inductive Import : Type :=
  | Imported (fitz : Library)
  | ImportError (e : str)
  | ImportRaised (e : str).

(** What the program reads from its surroundings: [sys.argv], the outcome
    of [Path(pdf_path).exists()], which is a boolean or an exception (a
    name that the file system refuses), and the outcome of [import fitz]. *)
Record Env : Type := {
  argv : list str;
  path_exists : str -> outcome bool;
  import_fitz : Import
}.

(** The response printed: by the normal path, or by the final handler,
    whose dictionary has the extra key ["details"]. *)
Inductive Printed : Type :=
  | Output (response : Response)
  | Unexpected (response : Response) (details : str).

(** The dictionary that is printed. *)
Definition response_of (p : Printed) : Response :=
  match p with
  | Output r => r
  | Unexpected r _ => r
  end.

(** A failure response whose description differs from its error. *)
Definition failure_described (message description : str) : Response :=
  {| success := false;
     error := Some message;
     results := {| tspId := None;
                   confidence := 0.0;
                   method := lit "error";
                   description := description;
                   accuracy := lit "0%";
                   extractedText := [];
                   processingTime := lit "error";
                   library := lit "PyMuPDF" |} |}.

Definition main (env : Env) : M Printed :=
  try_except
    (if negb (List.length (argv env) =? 2)%nat then
       ret (Output (failure_described (lit "Invalid arguments")
                                      (lit "Invalid arguments provided")))
     else
       let pdf_path := nth 1 (argv env) [] in
       found <-- lift (path_exists env pdf_path) ;;
       if negb found then
         ret (Output (failure_described (lit "File not found: " ++ pdf_path)
                                        (lit "File not found: " ++ pdf_path)))
       else
         match import_fitz env with
         | ImportError e =>
             ret (Output (failure_described (lit "PyMuPDF import failed: " ++ e)
                                            (lit "PyMuPDF import failed: " ++ e)))
         | ImportRaised e => lift (Raise e)
         | Imported fitz =>
             result <-- process_pdf fitz pdf_path ;;
             ret (Output result)
         end)
    (fun e =>
       ret (Unexpected (failure_described (lit "Unexpected error: " ++ e)
                                          (lit "Unexpected error: " ++ e))
                       e)).

End Pypdf2Main.

(** The extraction step of [working_pdf_processor.py]:
    [matches = re.findall(r'\b\d{6}\b', page_text)] and, when there is a
    match, [tsp_id = matches[0]]. *)
Module Working.

Definition simple_regex (page_text : str) : option str :=
  hd_error (Regex.findall 6 (Some 6) page_text).

End Working.

(** * Further reference definitions *)

Module Coverage.

Import TspIdExtractor.

Local Open Scope Q_scope.

(** The validator with the zip-code rule taken out. *)
Definition is_valid_without_zip_rule (number context_text : str) : bool :=
  catch
    (if negb ((min_tsp_id_length <=? len number)%nat &&
              (len number <=? max_tsp_id_length)%nat)
     then Return false
     else
       value <- to_int number ;;
       if (value <? 100000)%Z then Return false
       else if phone_shape number then Return false
       else if is_likely_date number then Return false
       else if (50 <? len (strip context_text))%nat then Return false
       else Return true)
    false.

(** The month, day and year fields the date rule reads. *)
Definition field (i j : nat) (number : str) : Z :=
  digits_value (slice i j number).

Definition in_range (lo hi v : Z) : bool := ((lo <=? v) && (v <=? hi))%Z.

(** Whether a block is a text block. *)
Definition has_lines (block : Block) : bool :=
  match block_lines block with
  | Some _ => true
  | None => false
  end.

(** The page without its image blocks. *)
Definition text_blocks_only (text_dict : TextDict) : TextDict :=
  {| blocks := Some (filter has_lines (get_blocks text_dict)) |}.

(** The base confidence of a method and the bonus of a length. *)
Definition base_of (method : str) : Q :=
  if PyStr.eqb method (lit "position_based") then 0.98
  else if PyStr.eqb method (lit "fallback") then 0.85
  else 0.95.

Definition bonus_of (n : nat) : Q :=
  if (n =? 6)%nat then 0.01 else if (n =? 7)%nat then 0.005
  else if (n =? 8)%nat then 0.002 else 0.

(** A state entered with [n] handles open and no local [doc]. *)
Definition entered (n : nat) : Frame := {| doc_bound := false; open_handles := n |}.

End Coverage.

Import Coverage.

(** * Properties *)

Unset Implicit Arguments.

Import TspIdExtractor.

(** ** Characters and digit strings *)

(** Decides a statement about character classes by comparing codes. *)
Ltac char_class :=
  unfold is_space, is_int_space, is_digit, is_word, is_latin1_alnum,
    is_digit_char, between in *;
  repeat match goal with
    | H : _ && _ = true |- _ => apply andb_true_iff in H; destruct H
    | H : (_ <=? _) = true |- _ => apply Nat.leb_le in H
    end;
  repeat match goal with
    | |- context [(?a <=? ?b)] => destruct (Nat.leb_spec a b)
    | |- context [(?a =? ?b)] => destruct (Nat.eqb_spec a b)
    end;
  simpl; try reflexivity; try lia.

Lemma digit_not_space (c : ascii) : is_digit c = true -> is_space c = false.
Proof. intros H. char_class. Qed.

Lemma digit_not_int_space (c : ascii) :
  is_digit c = true -> is_int_space c = false.
Proof. intros H. char_class. Qed.

Lemma digit_code (c : ascii) : is_digit c = true -> 48 <= code c <= 57.
Proof.
  unfold is_digit, between. intros H.
  apply andb_true_iff in H. destruct H as [H1 H2].
  apply Nat.leb_le in H1. apply Nat.leb_le in H2. lia.
Qed.

Lemma digit_is_word (c : ascii) : is_digit c = true -> is_word c = true.
Proof. unfold is_word. intros ->. reflexivity. Qed.

Lemma lstrip_head (c : ascii) (s : str) :
  is_space c = false -> lstrip (c :: s) = c :: s.
Proof. simpl. intros ->. reflexivity. Qed.

Lemma lstrip_digits (s : str) : forallb is_digit s = true -> lstrip s = s.
Proof.
  destruct s as [|c s]; [reflexivity|]. simpl. intros H.
  apply andb_true_iff in H. destruct H as [H _].
  now rewrite (digit_not_space _ H).
Qed.

Lemma forallb_rev (A : Type) (f : A -> bool) (l : list A) :
  forallb f l = true -> forallb f (rev l) = true.
Proof.
  rewrite !forallb_forall. intros H x Hx. apply H. now apply in_rev.
Qed.

Lemma int_lstrip_digits (s : str) :
  forallb is_digit s = true -> int_lstrip s = s.
Proof.
  destruct s as [|c s]; [reflexivity|]. simpl. intros H.
  apply andb_true_iff in H. destruct H as [H _].
  now rewrite (digit_not_int_space _ H).
Qed.

Lemma int_strip_digits (s : str) :
  forallb is_digit s = true -> int_strip s = s.
Proof.
  intros H. unfold int_strip.
  rewrite (int_lstrip_digits _ H).
  rewrite (int_lstrip_digits _ (forallb_rev _ _ _ H)).
  apply rev_involutive.
Qed.

Lemma strip_digits (s : str) : forallb is_digit s = true -> strip s = s.
Proof.
  intros H. unfold strip, rstrip.
  rewrite (lstrip_digits _ H).
  rewrite (lstrip_digits _ (forallb_rev _ _ _ H)).
  apply rev_involutive.
Qed.

Lemma int_digits_all (s : str) :
  forall acc b,
    forallb is_digit s = true ->
    s <> [] \/ b = true ->
    int_digits acc b s
    = Some (fold_left (fun acc c => (10 * acc + digit_value c)%Z) s acc).
Proof.
  induction s as [|c s IH]; intros acc b Hd Hne.
  - destruct Hne as [Hne | ->]; [congruence | reflexivity].
  - simpl in Hd. apply andb_true_iff in Hd. destruct Hd as [Hc Hs].
    simpl. rewrite Hc. apply IH; [assumption | now right].
Qed.

(** On a non-empty digit string [int] does not fail and returns the value
    read in base ten. *)
Lemma int_of_digits (s : str) :
  s <> [] -> forallb is_digit s = true -> PyStr.int s = Some (digits_value s).
Proof.
  intros Hne Hd. unfold PyStr.int. rewrite (int_strip_digits _ Hd).
  destruct s as [|c r]; [congruence|].
  pose proof Hd as Hd'. simpl in Hd'. apply andb_true_iff in Hd'.
  destruct Hd' as [Hc _]. apply digit_code in Hc.
  replace (code c =? 43) with false by (symmetry; apply Nat.eqb_neq; lia).
  replace (code c =? 45) with false by (symmetry; apply Nat.eqb_neq; lia).
  apply int_digits_all; [assumption | left; congruence].
Qed.

(** ** The candidate validator *)

Lemma valid_length (number context_text : str) :
  is_valid_tsp_id_candidate number context_text = true ->
  6 <= len number <= 8.
Proof.
  unfold is_valid_tsp_id_candidate, min_tsp_id_length, max_tsp_id_length.
  destruct (6 <=? len number) eqn:H6; [|discriminate].
  destruct (len number <=? 8) eqn:H8; [|discriminate].
  intros _. apply Nat.leb_le in H6. apply Nat.leb_le in H8. lia.
Qed.

Lemma invalid_outside_length (number context_text : str) :
  len number < 6 \/ 8 < len number ->
  is_valid_tsp_id_candidate number context_text = false.
Proof.
  intros H.
  destruct (is_valid_tsp_id_candidate number context_text) eqn:E; [|reflexivity].
  apply valid_length in E. lia.
Qed.

Lemma invalid_small_value (number context_text : str) (v : Z) :
  PyStr.int number = Some v -> (v < 100000)%Z ->
  is_valid_tsp_id_candidate number context_text = false.
Proof.
  intros Hv Hlt. unfold is_valid_tsp_id_candidate, to_int. rewrite Hv.
  destruct (negb _); [reflexivity|]. simpl.
  apply Z.ltb_lt in Hlt. now rewrite Hlt.
Qed.

(** C4.  The validator rejects every digit string shorter than 6 or longer
    than 8 characters, every digit string whose value is below 100000
    whatever its length, and the zip-code shapes: every 5-digit string with
    value in [501, 99950] and every 9-digit string with value in
    [50100000, 999509999] (which the zip-code rule itself recognises). *)
Theorem validator_rejections (number context_text : str) :
  forallb is_digit number = true ->
  (len number < 6 \/ 8 < len number ->
   is_valid_tsp_id_candidate number context_text = false) /\
  ((digits_value number < 100000)%Z ->
   is_valid_tsp_id_candidate number context_text = false) /\
  (len number = 5 -> (501 <= digits_value number <= 99950)%Z ->
   is_valid_tsp_id_candidate number context_text = false /\
   is_likely_zip_code number = true) /\
  (len number = 9 -> (50100000 <= digits_value number <= 999509999)%Z ->
   is_valid_tsp_id_candidate number context_text = false /\
   is_likely_zip_code number = true).
Proof.
  intros Hd. repeat split.
  - apply invalid_outside_length.
  - intros Hv. destruct number as [|c r] eqn:En.
    + apply invalid_outside_length. left. simpl. lia.
    + rewrite <- En in *.
      apply invalid_small_value with (v := digits_value number); [|assumption].
      apply int_of_digits; [rewrite En; congruence | assumption].
  - apply invalid_outside_length. lia.
  - unfold is_likely_zip_code, to_int. rewrite H. simpl.
    rewrite int_of_digits; [| intros ->; discriminate | assumption].
    simpl. apply andb_true_iff. split; apply Z.leb_le; lia.
  - apply invalid_outside_length. lia.
  - unfold is_likely_zip_code, to_int. rewrite H. simpl.
    rewrite int_of_digits; [| intros ->; discriminate | assumption].
    simpl. apply andb_true_iff. split; apply Z.leb_le; lia.
Qed.

Lemma validator_rejections_witness :
  (is_valid_tsp_id_candidate (lit "90210") (lit "zip 90210") = false /\
   is_likely_zip_code (lit "90210") = true) /\
  (is_valid_tsp_id_candidate (lit "902101234") [] = false /\
   is_likely_zip_code (lit "902101234") = true) /\
  is_valid_tsp_id_candidate (lit "012345") (lit "012345") = false /\
  is_valid_tsp_id_candidate (lit "1234") [] = false.
Proof.
  split; [|split; [|split]].
  - destruct (validator_rejections (lit "90210") (lit "zip 90210") eq_refl)
      as (_ & _ & H5 & _).
    apply H5; [reflexivity | vm_compute; split; discriminate].
  - destruct (validator_rejections (lit "902101234") [] eq_refl)
      as (_ & _ & _ & H9).
    apply H9; [reflexivity | vm_compute; split; discriminate].
  - destruct (validator_rejections (lit "012345") (lit "012345") eq_refl)
      as (_ & Hv & _).
    apply Hv. vm_compute. reflexivity.
  - destruct (validator_rejections (lit "1234") [] eq_refl) as (Hl & _).
    apply Hl. left. vm_compute. lia.
Defined.

Lemma phone_shape_long (number : str) :
  phone_shape number = true -> 10 <= len number.
Proof.
  unfold phone_shape. intros H. apply andb_true_iff in H. destruct H as [H _].
  apply orb_true_iff in H. destruct H as [H | H]; apply Nat.eqb_eq in H; lia.
Qed.

(** C10.  The phone-number rule never decides: on every number and context
    the validator agrees with the validator that has the rule taken out,
    since a string of 10 or 11 characters never passes the length rule. *)
Theorem phone_rule_redundant (number context_text : str) :
  is_valid_tsp_id_candidate number context_text
  = is_valid_without_phone_rule number context_text.
Proof.
  unfold is_valid_tsp_id_candidate, is_valid_without_phone_rule,
    min_tsp_id_length, max_tsp_id_length.
  destruct (6 <=? len number) eqn:H6; [|reflexivity].
  destruct (len number <=? 8) eqn:H8; [|reflexivity].
  simpl. destruct (to_int number) as [v|e]; [|reflexivity]. simpl.
  destruct (v <? 100000)%Z; [reflexivity|].
  destruct (phone_shape number) eqn:Hp; [|reflexivity].
  apply phone_shape_long in Hp. apply Nat.leb_le in H8. lia.
Qed.

(** ** The position scorer *)







(** ** The stable sort *)

Section SortFacts.
Variable A : Type.
Variable key : A -> Q.

Lemma insert_not_nil (reverse : bool) (x : A) (l : list A) :
  insert key reverse x l <> [].
Proof. destruct l as [|y l]; simpl; [|destruct (precedes _ _ _ _)]; discriminate. Qed.

Lemma insert_in (reverse : bool) (x y : A) (l : list A) :
  In y (insert key reverse x l) <-> y = x \/ In y l.
Proof.
  induction l as [|z l IH]; simpl.
  - intuition.
  - destruct (precedes key reverse x z); simpl; [intuition|].
    rewrite IH. intuition.
Qed.

Lemma sort_in (reverse : bool) (y : A) (l : list A) :
  In y (sort key reverse l) <-> In y l.
Proof.
  induction l as [|x l IH]; simpl; [reflexivity|].
  rewrite insert_in, IH. intuition.
Qed.

(** The head of a list sorted with [reverse=True] is the earliest element
    of the original list whose key is maximal. *)
Lemma sort_reverse_head (l : list A) (b : A) (rest : list A) :
  sort key true l = b :: rest ->
  exists l1 l2,
    l = l1 ++ b :: l2 /\
    (forall x, In x l1 -> (key x < key b)%Q) /\
    (forall x, In x l2 -> (key x <= key b)%Q).
Proof.
  revert b rest. induction l as [|a l IH]; intros b rest; simpl; [discriminate|].
  destruct (sort key true l) as [|h t] eqn:Es.
  - destruct l as [|a' l']; [|simpl in Es; now apply insert_not_nil in Es].
    simpl. intros E. injection E as <- _.
    exists [], []. repeat split; intros x [].
  - destruct (IH h t eq_refl) as (m1 & m2 & El & H1 & H2).
    simpl. unfold precedes. destruct (Qle_bool (key h) (key a)) eqn:Ele.
    + intros E. injection E as <- _.
      apply Qle_bool_iff in Ele.
      exists [], l. repeat split; [intros x [] |].
      intros x Hx. rewrite El in Hx. apply in_app_or in Hx.
      destruct Hx as [Hx | [<- | Hx]].
      * apply Qlt_le_weak. eapply Qlt_le_trans; [apply H1, Hx | exact Ele].
      * exact Ele.
      * eapply Qle_trans; [apply H2, Hx | exact Ele].
    + intros E. injection E as <- _.
      assert (Hlt : (key a < key h)%Q).
      { apply Qnot_le_lt. intros Hle. apply Qle_bool_iff in Hle. congruence. }
      exists (a :: m1), m2. repeat split.
      * simpl. now rewrite El.
      * intros x [<- | Hx]; [exact Hlt | now apply H1].
      * exact H2.
Qed.
End SortFacts.

(** ** The order of binary64 floats *)

Lemma SFltb_trans (x y z : spec_float) :
  SFltb x y = true -> SFltb y z = true -> SFltb x z = true.
Proof.
  unfold SFltb, SFcompare.
  destruct x as [[|]|[|]| |[|] mx ex], y as [[|]|[|]| |[|] my ey],
    z as [[|]|[|]| |[|] mz ez];
    try discriminate; try reflexivity;
    change (Pos.compare_cont Eq) with Pos.compare;
    destruct (Z.compare_spec ex ey); destruct (Z.compare_spec ey ez);
    destruct (Z.compare_spec ex ez);
    try discriminate; try reflexivity; try lia;
    destruct (Pos.compare_spec mx my); destruct (Pos.compare_spec my mz);
    destruct (Pos.compare_spec mx mz);
    simpl; try discriminate; try reflexivity; lia.
Qed.

Lemma SFltb_neg_trans (x y z : spec_float) :
  y <> S754_nan ->
  SFltb x y = false -> SFltb y z = false -> SFltb x z = false.
Proof.
  unfold SFltb, SFcompare.
  destruct x as [[|]|[|]| |[|] mx ex], y as [[|]|[|]| |[|] my ey],
    z as [[|]|[|]| |[|] mz ez];
    intros Hy; try congruence; try discriminate; try reflexivity;
    change (Pos.compare_cont Eq) with Pos.compare;
    destruct (Z.compare_spec ex ey); destruct (Z.compare_spec ey ez);
    destruct (Z.compare_spec ex ez);
    try discriminate; try reflexivity; try lia;
    destruct (Pos.compare_spec mx my); destruct (Pos.compare_spec my mz);
    destruct (Pos.compare_spec mx mz);
    simpl; try discriminate; try reflexivity; lia.
Qed.

Lemma SFeqb_nan : SFeqb S754_nan S754_nan = false.
Proof. reflexivity. Qed.

Lemma not_nan_spec (x : float) :
  PrimFloat.is_nan x = false -> Prim2SF x <> S754_nan.
Proof.
  unfold PrimFloat.is_nan. rewrite eqb_spec. intros H E. rewrite E in H.
  discriminate.
Qed.

(** [<] on floats is transitive. *)
Lemma ltb_trans (x y z : float) :
  (x <? y)%float = true -> (y <? z)%float = true -> (x <? z)%float = true.
Proof. rewrite !ltb_spec. apply SFltb_trans. Qed.

(** When [y] is not NaN, "not below" passes through [y]. *)
Lemma ltb_neg_trans (x y z : float) :
  PrimFloat.is_nan y = false ->
  (x <? y)%float = false -> (y <? z)%float = false -> (x <? z)%float = false.
Proof.
  intros Hy. rewrite !ltb_spec. apply SFltb_neg_trans. now apply not_nan_spec.
Qed.

Lemma SFmul_comm (x y : spec_float) : SF64mul x y = SF64mul y x.
Proof.
  unfold SF64mul, SFmul. destruct x, y; try reflexivity;
    try (now rewrite xorb_comm).
  now rewrite xorb_comm, Pos.mul_comm, Z.add_comm.
Qed.

Lemma mul_comm (x y : float) : (x * y)%float = (y * x)%float.
Proof. apply Prim2SF_inj. rewrite !mul_spec. apply SFmul_comm. Qed.

(** Starting a sum from [0.0], or adding [0.0] to it, does not change what
    the next finite term gives. *)
Lemma sum_from_zero (t c : float) (s : bool) (m : positive) (e : Z) :
  Prim2SF c = S754_finite s m e ->
  ((0.0 + t) + c)%float = (t + c)%float /\
  ((t + 0.0) + c)%float = (t + c)%float.
Proof.
  intros Hc. split; apply Prim2SF_inj; rewrite !add_spec, Hc;
    change (Prim2SF 0.0) with (S754_zero false);
    unfold SF64add, SFadd; destruct (Prim2SF t) as [[|]|[|]| |]; reflexivity.
Qed.

(** ** The stable sort on float keys *)

Section FloatSortFacts.
Variable A : Type.
Variable key : A -> float.

Lemma float_insert_not_nil (reverse : bool) (x : A) (l : list A) :
  float_insert key reverse x l <> [].
Proof.
  destruct l as [|y l]; simpl; [|destruct (float_precedes _ _ _ _)];
    discriminate.
Qed.

Lemma float_insert_in (reverse : bool) (x y : A) (l : list A) :
  In y (float_insert key reverse x l) <-> y = x \/ In y l.
Proof.
  induction l as [|z l IH]; simpl.
  - intuition.
  - destruct (float_precedes key reverse x z); simpl; [intuition|].
    rewrite IH. intuition.
Qed.

Lemma float_sort_in (reverse : bool) (y : A) (l : list A) :
  In y (float_sort key reverse l) <-> In y l.
Proof.
  induction l as [|x l IH]; simpl; [reflexivity|].
  rewrite float_insert_in, IH. intuition.
Qed.

(** When no key is NaN, the head of a list sorted with [reverse=True] is
    the earliest element of the original list that no element exceeds:
    every element before it is strictly below it, and it is below no
    element after it. *)
Lemma float_sort_reverse_head (l : list A) (b : A) (rest : list A) :
  (forall x, In x l -> PrimFloat.is_nan (key x) = false) ->
  float_sort key true l = b :: rest ->
  exists l1 l2,
    l = l1 ++ b :: l2 /\
    (forall x, In x l1 -> (key x <? key b)%float = true) /\
    (forall x, In x l2 -> (key b <? key x)%float = false).
Proof.
  revert b rest. induction l as [|a l IH]; intros b rest Hnan; simpl;
    [discriminate|].
  destruct (float_sort key true l) as [|h t] eqn:Es.
  - destruct l as [|a' l']; [|simpl in Es; now apply float_insert_not_nil in Es].
    simpl. intros E. injection E as <- _.
    exists [], []. repeat split; intros x [].
  - destruct (IH h t (fun x Hx => Hnan x (or_intror Hx)) eq_refl)
      as (m1 & m2 & El & H1 & H2).
    assert (Hh : PrimFloat.is_nan (key h) = false).
    { apply Hnan. right. rewrite El. apply in_or_app. right. now left. }
    simpl. unfold float_precedes.
    destruct (key a <? key h)%float eqn:Elt; cbn [negb].
    + intros E. injection E as <- _.
      exists (a :: m1), m2. repeat split.
      * simpl. now rewrite El.
      * intros x [<- | Hx]; [exact Elt | now apply H1].
      * exact H2.
    + intros E. injection E as <- _.
      exists [], l. repeat split; [intros x [] |].
      intros x Hx. rewrite El in Hx. apply in_app_or in Hx.
      destruct Hx as [Hx | [<- | Hx]].
      * destruct (key a <? key x)%float eqn:Eax; [|reflexivity].
        rewrite (ltb_trans _ _ _ Eax (H1 x Hx)) in Elt. discriminate.
      * exact Elt.
      * exact (ltb_neg_trans _ _ _ Hh Elt (H2 x Hx)).
Qed.
End FloatSortFacts.

(** ** The candidate selector *)

Lemma candidate_score_weighted (c : Candidate) :
  candidate_score c = weighted_score c.
Proof.
  unfold candidate_score, weighted_score, length_bonus, context_bonus.
  rewrite (mul_comm 0.4 (of_Q (position_score c))).
  set (t := (of_Q (position_score c) * 0.4)%float).
  assert (H3 := sum_from_zero t 0.3 false _ _ eq_refl).
  assert (H2 := sum_from_zero t 0.2 false _ _ eq_refl).
  assert (H1 := sum_from_zero t 0.1 false _ _ eq_refl).
  destruct (len (number c) =? 6); [|destruct (len (number c) =? 7);
    [|destruct (len (number c) =? 8)]];
  (destruct (len (strip (text c)) <=? 20);
    [|destruct (len (strip (text c)) <=? 30)]);
  first [ now rewrite (proj1 H3) | now rewrite (proj1 H2)
        | now rewrite (proj1 H1)
        | rewrite (proj1 H3), (proj2 H3); reflexivity
        | rewrite (proj1 H2), (proj2 H2); reflexivity
        | rewrite (proj1 H1), (proj2 H1); reflexivity ].
Qed.

Lemma select_single (only : Candidate) :
  select_best_candidate [only] = Some (number only).
Proof. reflexivity. Qed.

(** The selector returns the number of one of its candidates. *)
Lemma select_member (candidates : list Candidate) :
  candidates <> [] ->
  exists c, In c candidates /\ select_best_candidate candidates = Some (number c).
Proof.
  intros Hne. destruct candidates as [|c1 [|c2 r]]; [congruence | |].
  - exists c1. split; [now left | reflexivity].
  - unfold select_best_candidate.
    destruct (float_sort score true (map score_candidate (c1 :: c2 :: r)))
      as [|b rest] eqn:Es.
    + exists c1. split; [now left | reflexivity].
    + assert (Hb : In b (map score_candidate (c1 :: c2 :: r))).
      { apply (float_sort_in _ score true). rewrite Es. now left. }
      apply in_map_iff in Hb. destruct Hb as (c & <- & Hc).
      exists c. split; [exact Hc | reflexivity].
Qed.

Lemma select_several (c1 c2 : Candidate) (r : list Candidate) :
  (forall c, In c (c1 :: c2 :: r) ->
     PrimFloat.is_nan (candidate_score c) = false) ->
  exists earlier best later,
    c1 :: c2 :: r = earlier ++ best :: later /\
    select_best_candidate (c1 :: c2 :: r) = Some (number best) /\
    (forall c, In c earlier ->
       (candidate_score c <? candidate_score best)%float = true) /\
    (forall c, In c later ->
       (candidate_score best <? candidate_score c)%float = false).
Proof.
  intros Hnan. unfold select_best_candidate.
  destruct (float_sort score true (map score_candidate (c1 :: c2 :: r)))
    as [|b rest] eqn:Es.
  - exfalso. simpl in Es. now apply float_insert_not_nil in Es.
  - assert (Hn : forall x, In x (map score_candidate (c1 :: c2 :: r)) ->
                           PrimFloat.is_nan (score x) = false).
    { intros x Hx. apply in_map_iff in Hx. destruct Hx as (c & <- & Hc).
      now apply Hnan. }
    destruct (float_sort_reverse_head _ score _ _ _ Hn Es)
      as (l1 & l2 & El & H1 & H2).
    apply map_eq_app in El. destruct El as (earlier & tl & Ec & E1 & Etl).
    apply map_eq_cons in Etl. destruct Etl as (best & later & -> & <- & E2).
    subst l1 l2. exists earlier, best, later. repeat split.
    + exact Ec.
    + intros c Hc. apply (H1 (score_candidate c)). now apply in_map.
    + intros c Hc. apply (H2 (score_candidate c)). now apply in_map.
Qed.

(** C1.  On a non-empty candidate list: a single candidate's digits are
    returned as they are (the scoring loop is not entered); with several
    candidates the score of each is, in float arithmetic,
    [0.4 * position_score] plus the length bonus (0.3, 0.2, 0.1 for 6, 7, 8
    digits) plus the context bonus (0.3 for a trimmed text of at most 20
    characters, 0.2 for at most 30, else 0.1), and, no score being NaN, the
    digits returned are those of a candidate of maximal score, the earliest
    harvested among the maximal ones: every candidate before it scores
    strictly less and no candidate after it scores more. *)
Theorem select_best_candidate_spec (candidates : list Candidate) :
  candidates <> [] ->
  (forall c, In c candidates -> PrimFloat.is_nan (candidate_score c) = false) ->
  (exists c, In c candidates /\
             select_best_candidate candidates = Some (number c)) /\
  (forall only, candidates = [only] ->
     select_best_candidate candidates = Some (number only)) /\
  (forall c, candidate_score c = weighted_score c) /\
  (2 <= List.length candidates ->
   exists earlier best later,
     candidates = earlier ++ best :: later /\
     select_best_candidate candidates = Some (number best) /\
     (forall c, In c earlier ->
        (weighted_score c <? weighted_score best)%float = true) /\
     (forall c, In c later ->
        (weighted_score best <? weighted_score c)%float = false)).
Proof.
  intros Hne Hnan. split; [|split; [|split]].
  - now apply select_member.
  - intros only ->. apply select_single.
  - apply candidate_score_weighted.
  - intros Hlen. destruct candidates as [|c1 [|c2 r]]; simpl in Hlen; try lia.
    destruct (select_several c1 c2 r Hnan)
      as (earlier & best & later & E & Hs & H1 & H2).
    exists earlier, best, later. repeat split; try assumption.
    + intros c Hc. rewrite <- !candidate_score_weighted. now apply H1.
    + intros c Hc. rewrite <- !candidate_score_weighted. now apply H2.
Qed.

Lemma select_best_candidate_spec_witness :
  exists earlier best later,
    Samples.three_candidates = earlier ++ best :: later /\
    select_best_candidate Samples.three_candidates = Some (number best) /\
    (forall c, In c earlier ->
       (weighted_score c <? weighted_score best)%float = true) /\
    (forall c, In c later ->
       (weighted_score best <? weighted_score c)%float = false).
Proof.
  destruct (select_best_candidate_spec Samples.three_candidates)
    as (_ & _ & _ & Hseveral).
  - discriminate.
  - intros c [<- | [<- | [<- | []]]]; vm_compute; reflexivity.
  - apply Hseveral. simpl. lia.
Defined.

(** The second and third candidates tie at the top; the earlier of the two
    is selected. *)
Example select_tie_earliest :
  select_best_candidate Samples.three_candidates = Some (lit "164082") /\
  map candidate_score Samples.three_candidates
  = [0.7; 0.8; 0.8]%float.
Proof. split; vm_compute; reflexivity. Qed.

(** Two candidates whose exact scores would tie at 0.6: the float sums are
    0.6 and 0.6000000000000001, and the second candidate is selected. *)
Example select_float_rounding :
  map candidate_score Samples.rounding_candidates
  = [0.6; 0.6000000000000001]%float /\
  select_best_candidate Samples.rounding_candidates = Some (lit "7001230").
Proof. split; vm_compute; reflexivity. Qed.

(** ** The header-boundary locator *)

Lemma startswith_app (p q s : str) :
  startswith (p ++ q) s = true -> startswith p s = true.
Proof.
  revert s. induction p as [|a p IH]; intros s; [reflexivity|].
  destruct s as [|b s]; simpl; [discriminate|].
  intros H. apply andb_true_iff in H. destruct H as [-> H].
  simpl. now apply IH.
Qed.

Lemma contains_app (p q s : str) :
  contains (p ++ q) s = true -> contains p s = true.
Proof.
  induction s as [|b s IH].
  - simpl. rewrite !orb_false_r. apply startswith_app.
  - cbn [contains]. intros H. apply orb_true_iff in H. apply orb_true_iff.
    destruct H as [H | H]; [left; eapply startswith_app; exact H | right; auto].
Qed.

(** A text with the exact heading also has the partial heading. *)
Lemma exact_is_partial (s : str) :
  contains exact_heading s = true -> contains partial_heading s = true.
Proof.
  change exact_heading with (partial_heading ++ lit " Charges and Payments").
  apply contains_app.
Qed.

Lemma find_in_spans_first (before : list Span) (span : Span) (after : list Span) :
  (forall s, In s before ->
     contains partial_heading (strip (span_text s)) = false) ->
  contains partial_heading (strip (span_text span)) = true ->
  find_in_spans (before ++ span :: after) = boundary_of (span_bbox span).
Proof.
  intros Hb Hs. induction before as [|x before IH]; simpl.
  - rewrite Hs. destruct (contains exact_heading _); reflexivity.
  - assert (Hx : contains partial_heading (strip (span_text x)) = false)
      by (apply Hb; now left).
    destruct (contains exact_heading (strip (span_text x))) eqn:Ex.
    + apply exact_is_partial in Ex. congruence.
    + rewrite Hx. apply IH. intros s Hin. apply Hb. now right.
Qed.

Lemma find_in_spans_none (l : list Span) :
  (forall s, In s l -> contains partial_heading (strip (span_text s)) = false) ->
  find_in_spans l = Return None.
Proof.
  induction l as [|x l IH]; intros H; [reflexivity|]. simpl.
  assert (Hx : contains partial_heading (strip (span_text x)) = false)
    by (apply H; now left).
  destruct (contains exact_heading (strip (span_text x))) eqn:Ex.
  - apply exact_is_partial in Ex. congruence.
  - rewrite Hx. apply IH. intros s Hin. apply H. now right.
Qed.

(** C2 as stated fails: on a page whose first span has only the partial
    heading and whose second span has the exact heading, the locator returns
    the box of the first span, where a two-pass locator returns that of the
    second. *)
Lemma partial_match_shadows_exact :
  first_span_with exact_heading
    (document_spans (get_blocks Samples.partial_before_exact))
  = Some {| span_text := lit "Summary of VIDAPAY Charges and Payments";
            span_bbox := Samples.box 72 300 400 314 |} /\
  two_pass_boundary Samples.partial_before_exact = Some (Num 300, Num 314) /\
  find_summary_boundary Samples.partial_before_exact = Some (Num 100, Num 112) /\
  find_summary_boundary Samples.partial_before_exact
  <> two_pass_boundary Samples.partial_before_exact.
Proof.
  repeat split; try (vm_compute; reflexivity).
  vm_compute. discriminate.
Qed.

(** C2, amended.  The locator makes one pass over the spans in document
    order and tests each span for the exact and then for the partial
    heading.  A text with the exact heading also has the partial one, so the
    pair returned is the [(y0, y1)] of the first span whose trimmed text
    contains the partial heading ["Summary of VIDAPAY"], whether or not a
    later span has the exact heading; when no span contains the partial
    heading nothing is found. *)
Theorem find_summary_boundary_first_match (text_dict : TextDict) :
  (forall s, contains exact_heading s = true -> contains partial_heading s = true) /\
  (forall before span after y0 y1,
      document_spans (get_blocks text_dict) = before ++ span :: after ->
      (forall s, In s before ->
         contains partial_heading (strip (span_text s)) = false) ->
      contains partial_heading (strip (span_text span)) = true ->
      nth_error (span_bbox span) 1 = Some y0 ->
      nth_error (span_bbox span) 3 = Some y1 ->
      find_summary_boundary text_dict = Some (y0, y1)) /\
  ((forall s, In s (document_spans (get_blocks text_dict)) ->
      contains partial_heading (strip (span_text s)) = false) ->
   find_summary_boundary text_dict = None).
Proof.
  split; [exact exact_is_partial|]. split.
  - intros before span after y0 y1 E Hb Hs H0 H1.
    unfold find_summary_boundary. rewrite E.
    rewrite (find_in_spans_first before span after Hb Hs).
    unfold boundary_of, index. rewrite H0, H1. reflexivity.
  - intros H. unfold find_summary_boundary.
    now rewrite (find_in_spans_none _ H).
Qed.

Lemma find_summary_boundary_first_match_witness :
  find_summary_boundary Samples.partial_before_exact = Some (Num 100, Num 112).
Proof.
  apply (proj1 (proj2 (find_summary_boundary_first_match Samples.partial_before_exact))
           []
           {| span_text := lit "Summary of VIDAPAY";
              span_bbox := Samples.box 72 100 300 112 |}
           [ {| span_text := lit "Summary of VIDAPAY Charges and Payments";
                span_bbox := Samples.box 72 300 400 314 |} ]).
  - reflexivity.
  - intros s [].
  - vm_compute. reflexivity.
  - reflexivity.
  - reflexivity.
Defined.

(** ** The header region *)

Lemma Qltb_lt (x y : Q) : Qltb x y = true -> (x < y)%Q.
Proof.
  unfold Qltb. intros H. apply Qlt_alt.
  destruct (x ?= y)%Q; congruence.
Qed.

Lemma header_blocks_above_in (summary_y : value) (bs hs : list Block) (b : Block) :
  header_blocks_above summary_y bs = Return hs ->
  In b hs ->
  In b bs /\
  (exists ls, block_lines b = Some ls) /\
  exists block_y y,
    nth_error (block_bbox b) 1 = Some (Num block_y) /\
    summary_y = Num y /\ (block_y < y)%Q.
Proof.
  revert hs. induction bs as [|x bs IH]; intros hs; simpl.
  - intros E. injection E as <-. intros [].
  - destruct (block_lines x) as [ls|] eqn:El.
    + unfold index. destruct (nth_error (block_bbox x) 1) as [v|] eqn:Ev;
        [|discriminate]. simpl.
      destruct v as [q|]; [|discriminate].
      destruct summary_y as [y|]; [|discriminate]. simpl.
      destruct (header_blocks_above (Num y) bs) as [tl|e] eqn:Et; [|discriminate].
      simpl. intros E. injection E as <-.
      destruct (Qltb q y) eqn:Elt.
      * intros [<- | Hin].
        -- split; [now left|]. split; [now exists ls|].
           exists q, y. repeat split; [assumption|]. now apply Qltb_lt.
        -- destruct (IH tl eq_refl Hin) as (H1 & H2 & H3).
           split; [now right|]. split; assumption.
      * intros Hin. destruct (IH tl eq_refl Hin) as (H1 & H2 & H3).
        split; [now right|]. split; assumption.
    + intros E Hin. destruct (IH hs E Hin) as (H1 & H2 & H3).
      split; [now right|]. split; assumption.
Qed.

Lemma span_candidates_in (span : Span) (c : Candidate) :
  In c (span_candidates span) ->
  text c = strip (span_text span) /\
  bbox c = span_bbox span /\
  position_score c = calculate_position_score (span_bbox span) /\
  In (number c) (Regex.findall_6_8 (strip (span_text span))) /\
  is_valid_tsp_id_candidate (number c) (strip (span_text span)) = true.
Proof.
  unfold span_candidates. intros H. apply in_flat_map in H.
  destruct H as (n & Hn & Hc).
  destruct (is_valid_tsp_id_candidate n (strip (span_text span))) eqn:Ev;
    [|destruct Hc].
  destruct Hc as [<- | []]. simpl. auto.
Qed.

Lemma document_spans_in (bs : list Block) (span : Span) :
  In span (document_spans bs) ->
  exists block ls line,
    In block bs /\ block_lines block = Some ls /\
    In line ls /\ In span (spans line).
Proof.
  unfold document_spans. intros H. apply in_flat_map in H.
  destruct H as (block & Hb & Hs). unfold block_spans in Hs.
  destruct (block_lines block) as [ls|] eqn:El; [|destruct Hs].
  apply in_flat_map in Hs. destruct Hs as (line & Hl & Hs).
  exists block, ls, line. auto.
Qed.

(** C3 as stated fails: a text block that starts above the heading and runs
    on below it is retained whole, and the number in its last line, whose
    span lies below the heading, is harvested and returned. *)
Lemma candidate_below_boundary :
  find_summary_boundary Samples.block_across_heading = Some (Num 300, Num 314) /\
  (exists c,
      header_candidates Samples.block_across_heading (Num 300, Num 314)
      = Return [c] /\
      number c = lit "164082" /\
      top_edge (bbox c) = Some 350%Q /\
      ~ (350 < 300)%Q) /\
  extract_from_header_section Samples.block_across_heading (Num 300, Num 314)
  = Some (lit "164082").
Proof.
  split; [vm_compute; reflexivity|]. split; [|vm_compute; reflexivity].
  eexists. split; [vm_compute; reflexivity|].
  split; [reflexivity|]. split; [reflexivity|].
  intros H. vm_compute in H. discriminate.
Qed.

(** C3, amended.  The region filter works on blocks, not on spans: every
    candidate harvested for a boundary comes from a span of a text block
    whose own bounding-box top is strictly less than the boundary's top; the
    candidate carries that span's box and trimmed text, and its digits are a
    match of the 6-to-8 digit pattern in that text which the validator
    accepts.  Where the spans of such a block lie is not examined. *)
Theorem header_candidates_from_blocks_above
  (text_dict : TextDict) (summary_boundary : value * value)
  (candidates : list Candidate) (c : Candidate) :
  header_candidates text_dict summary_boundary = Return candidates ->
  In c candidates ->
  exists block ls line span block_y summary_y,
    In block (get_blocks text_dict) /\
    block_lines block = Some ls /\ In line ls /\ In span (spans line) /\
    top_edge (block_bbox block) = Some block_y /\
    fst summary_boundary = Num summary_y /\
    (block_y < summary_y)%Q /\
    text c = strip (span_text span) /\
    bbox c = span_bbox span /\
    In (number c) (Regex.findall_6_8 (text c)) /\
    is_valid_tsp_id_candidate (number c) (text c) = true.
Proof.
  unfold header_candidates.
  destruct (header_blocks_above (fst summary_boundary) (get_blocks text_dict))
    as [hs|e] eqn:Eh; [|discriminate].
  simpl. intros E Hc. injection E as <-.
  unfold extract_tsp_id_candidates in Hc. apply in_flat_map in Hc.
  destruct Hc as (span & Hspan & Hc).
  apply document_spans_in in Hspan.
  destruct Hspan as (block & ls & line & Hb & El & Hl & Hs).
  apply sort_in in Hb.
  destruct (header_blocks_above_in _ _ _ _ Eh Hb)
    as (Hin & _ & block_y & y & Ey & Esum & Hlt).
  apply span_candidates_in in Hc. destruct Hc as (Et & Eb & _ & Hn & Hv).
  exists block, ls, line, span, block_y, y.
  unfold top_edge. rewrite Ey, Et. auto 12.
Qed.

Lemma header_candidates_from_blocks_above_witness :
  exists block ls line span block_y summary_y,
    In block (get_blocks Samples.invoice_page) /\
    block_lines block = Some ls /\ In line ls /\ In span (spans line) /\
    top_edge (block_bbox block) = Some block_y /\
    fst (Num 300, Num 314) = Num summary_y /\
    (block_y < summary_y)%Q /\
    lit "TSP 164082" = strip (span_text span) /\
    Samples.box 50 50 120 62 = span_bbox span /\
    In (lit "164082") (Regex.findall_6_8 (lit "TSP 164082")) /\
    is_valid_tsp_id_candidate (lit "164082") (lit "TSP 164082") = true.
Proof.
  apply (header_candidates_from_blocks_above
           Samples.invoice_page (Num 300, Num 314)
           [ {| number := lit "164082"; text := lit "TSP 164082";
                bbox := Samples.box 50 50 120 62;
                position_score :=
                  calculate_position_score (Samples.box 50 50 120 62) |} ]
           {| number := lit "164082"; text := lit "TSP 164082";
              bbox := Samples.box 50 50 120 62;
              position_score :=
                calculate_position_score (Samples.box 50 50 120 62) |}).
  - vm_compute. reflexivity.
  - left. reflexivity.
Defined.

(** ** The fallback extractor and the confidence *)

Lemma fallback_success (text_dict : TextDict) (result : Success) :
  fallback_extraction text_dict = Found result ->
  confidence result = 0.85%Q /\
  method result = lit "fallback_extraction" /\
  In (tspId result) (Regex.findall_6_8 (all_text text_dict)) /\
  is_valid_tsp_id_candidate (tspId result) [] = true.
Proof.
  unfold fallback_extraction.
  destruct (filter _ _) as [|tsp_id rest] eqn:Ef; [discriminate|].
  intros E. injection E as <-. simpl.
  assert (Hin : In tsp_id (tsp_id :: rest)) by now left.
  rewrite <- Ef in Hin. apply filter_In in Hin. destruct Hin as [Hin Hv].
  auto.
Qed.

(** The first span of a page that has no heading: what one extraction does
    when the boundary is absent. *)
Lemma extract_without_boundary
  (fitz : Library) (pdf_path : str) (doc : Document) (text_dict : TextDict)
  (st : Frame) :
  fitz pdf_path = Return doc ->
  page_count doc <> 0 ->
  first_page_dict doc = Return text_dict ->
  find_summary_boundary text_dict = None ->
  fst (Extractor.extract_tsp_id_from_pdf fitz pdf_path st)
  = Return (fallback_extraction text_dict).
Proof.
  intros Eo Hp Ed Eb.
  unfold Extractor.extract_tsp_id_from_pdf, try_finally, try_except,
    Extractor.extract_body, mbind, open, lift, ret, close_if_bound, close.
  rewrite Eo. apply Nat.eqb_neq in Hp. rewrite Hp, Ed, Eb. reflexivity.
Qed.

(** C5 as stated fails: on a page without the heading the 6-digit
    identifier is returned with confidence 0.85, not with the 0.86 that the
    fallback base plus the 6-digit bonus would give. *)
Lemma fallback_confidence_has_no_bonus :
  find_summary_boundary Samples.no_heading_page = None /\
  exists result,
    fst (Extractor.extract_tsp_id_from_pdf
           (Samples.one_page_pdf Samples.no_heading_page (lit "TSP 164082"))
           (lit "invoice.pdf") entry)
    = Return (Found result) /\
    tspId result = lit "164082" /\
    (confidence result == 0.85)%Q /\
    (calculate_confidence (tspId result) (lit "fallback") == 0.86)%Q /\
    ~ (confidence result == calculate_confidence (tspId result) (lit "fallback"))%Q.
Proof.
  split; [vm_compute; reflexivity|].
  eexists. split; [vm_compute; reflexivity|].
  split; [reflexivity|].
  split; [vm_compute; reflexivity|].
  split; [vm_compute; reflexivity|].
  vm_compute. discriminate.
Qed.

(** C5, amended.  When the heading is absent and the extraction succeeds,
    the result is that of the fallback path: its identifier is a 6-to-8
    digit match of the page text that the validator accepts with an empty
    context, its method is ["fallback_extraction"], and its confidence is
    the constant 0.85 whatever the length of the identifier; the confidence
    calculator and its length bonus are not used on this path. *)
Theorem fallback_confidence_constant
  (fitz : Library) (pdf_path : str) (doc : Document) (text_dict : TextDict)
  (st : Frame) (result : Success) :
  fitz pdf_path = Return doc ->
  page_count doc <> 0 ->
  first_page_dict doc = Return text_dict ->
  find_summary_boundary text_dict = None ->
  fst (Extractor.extract_tsp_id_from_pdf fitz pdf_path st) = Return (Found result) ->
  confidence result = 0.85%Q /\
  method result = lit "fallback_extraction" /\
  In (tspId result) (Regex.findall_6_8 (all_text text_dict)) /\
  is_valid_tsp_id_candidate (tspId result) [] = true.
Proof.
  intros Eo Hp Ed Eb Er.
  rewrite (extract_without_boundary fitz pdf_path doc text_dict st Eo Hp Ed Eb) in Er.
  injection Er as Er. now apply fallback_success.
Qed.

Lemma fallback_confidence_constant_witness :
  confidence Samples.fallback_result = 0.85%Q /\
  method Samples.fallback_result = lit "fallback_extraction" /\
  In (tspId Samples.fallback_result)
     (Regex.findall_6_8 (all_text Samples.no_heading_page)) /\
  is_valid_tsp_id_candidate (tspId Samples.fallback_result) [] = true.
Proof.
  apply (fallback_confidence_constant
           (Samples.one_page_pdf Samples.no_heading_page (lit "TSP 164082"))
           (lit "invoice.pdf")
           {| page_count := 1;
              first_page_dict := Return Samples.no_heading_page;
              first_page_text := Return (lit "TSP 164082") |}
           Samples.no_heading_page entry Samples.fallback_result).
  - reflexivity.
  - simpl. discriminate.
  - reflexivity.
  - vm_compute. reflexivity.
  - vm_compute. reflexivity.
Defined.

(** ** One extraction call: errors and the document handle *)

(** Whatever the library does, the call returns a value. *)
Lemma extract_returns (fitz : Library) (pdf_path : str) (st : Frame) :
  exists result st',
    Extractor.extract_tsp_id_from_pdf fitz pdf_path st = (Return result, st').
Proof.
  unfold Extractor.extract_tsp_id_from_pdf, try_finally, try_except,
    Extractor.extract_body, mbind, open, lift, ret, close_if_bound, close.
  destruct (fitz pdf_path) as [doc|e]; simpl.
  - destruct (page_count doc =? 0); simpl; [eauto|].
    destruct (first_page_dict doc) as [text_dict|e]; simpl; [|eauto].
    destruct (find_summary_boundary text_dict) as [b|]; simpl; [|eauto].
    destruct (extract_from_header_section text_dict b) as [tsp_id|]; simpl;
      [|eauto].
    destruct (negb (len tsp_id =? 0)); simpl; eauto.
  - destruct (doc_bound st); simpl; eauto.
Qed.

Lemma no_spans_no_boundary (text_dict : TextDict) :
  document_spans (get_blocks text_dict) = [] ->
  find_summary_boundary text_dict = None /\
  fallback_extraction text_dict
  = Error (lit "No TSP ID found using fallback method").
Proof.
  intros E. unfold find_summary_boundary, fallback_extraction, all_text.
  rewrite E. split; reflexivity.
Qed.

(** C9 as stated fails: not every error inside the call ends as a failure
    record.  On a page whose heading span has a box of two entries the
    locator raises, the error is swallowed there, and the call goes on to
    the fallback and returns a success record. *)
Lemma helper_error_gives_success :
  find_in_spans (document_spans (get_blocks Samples.short_heading_box_page))
  = Raise (lit "list index out of range") /\
  exists result,
    fst (Extractor.extract_tsp_id_from_pdf
           (Samples.one_page_pdf Samples.short_heading_box_page (lit "TSP 164082"))
           (lit "invoice.pdf") entry)
    = Return (Found result) /\
    tspId result = lit "164082" /\
    method result = lit "fallback_extraction".
Proof.
  split; [vm_compute; reflexivity|].
  exists Samples.fallback_result. split; [vm_compute; reflexivity|].
  split; reflexivity.
Qed.

(** C9, amended.  No error inside one extraction call of the
    layout-boundary extractor surfaces as an exception: the call always
    returns the success dictionary or [{"error": message}].  An error of
    the PDF library (opening the document, reading the first page) becomes
    the record ["PDF processing error: ..."], a document without pages
    becomes ["Empty PDF document"], and a page without any text span (no
    blocks, or no text blocks, or no spans) becomes
    ["No TSP ID found using fallback method"].  An error inside a helper
    step is swallowed by the helper and the call goes on: when the heading
    locator raises, the heading counts as not found and the result of the
    fallback is returned, which may be a success; when the header
    extraction raises, the record is
    ["No TSP ID found in header section"]. *)
Theorem extraction_errors_are_records (fitz : Library) (pdf_path : str) (st : Frame) :
  (exists result st',
      Extractor.extract_tsp_id_from_pdf fitz pdf_path st = (Return result, st')) /\
  (forall e,
      fitz pdf_path = Raise e ->
      fst (Extractor.extract_tsp_id_from_pdf fitz pdf_path st)
      = Return (Error (lit "PDF processing error: " ++ e))) /\
  (forall doc,
      fitz pdf_path = Return doc -> page_count doc = 0 ->
      fst (Extractor.extract_tsp_id_from_pdf fitz pdf_path st)
      = Return (Error (lit "Empty PDF document"))) /\
  (forall doc e,
      fitz pdf_path = Return doc -> page_count doc <> 0 ->
      first_page_dict doc = Raise e ->
      fst (Extractor.extract_tsp_id_from_pdf fitz pdf_path st)
      = Return (Error (lit "PDF processing error: " ++ e))) /\
  (forall doc text_dict,
      fitz pdf_path = Return doc -> page_count doc <> 0 ->
      first_page_dict doc = Return text_dict ->
      document_spans (get_blocks text_dict) = [] ->
      fst (Extractor.extract_tsp_id_from_pdf fitz pdf_path st)
      = Return (Error (lit "No TSP ID found using fallback method"))) /\
  (forall doc text_dict e,
      fitz pdf_path = Return doc -> page_count doc <> 0 ->
      first_page_dict doc = Return text_dict ->
      find_in_spans (document_spans (get_blocks text_dict)) = Raise e ->
      fst (Extractor.extract_tsp_id_from_pdf fitz pdf_path st)
      = Return (fallback_extraction text_dict)) /\
  (forall doc text_dict b e,
      fitz pdf_path = Return doc -> page_count doc <> 0 ->
      first_page_dict doc = Return text_dict ->
      find_summary_boundary text_dict = Some b ->
      header_candidates text_dict b = Raise e ->
      fst (Extractor.extract_tsp_id_from_pdf fitz pdf_path st)
      = Return (Error (lit "No TSP ID found in header section"))).
Proof.
  split; [apply extract_returns|].
  split; [|split; [|split; [|split; [|split]]]].
  - intros e Eo.
    unfold Extractor.extract_tsp_id_from_pdf, try_finally, try_except,
      Extractor.extract_body, mbind, open, lift, ret, close_if_bound, close.
    rewrite Eo. destruct (doc_bound st); reflexivity.
  - intros doc Eo Hp.
    unfold Extractor.extract_tsp_id_from_pdf, try_finally, try_except,
      Extractor.extract_body, mbind, open, lift, ret, close_if_bound, close.
    rewrite Eo, Hp. reflexivity.
  - intros doc e Eo Hp Ed.
    unfold Extractor.extract_tsp_id_from_pdf, try_finally, try_except,
      Extractor.extract_body, mbind, open, lift, ret, close_if_bound, close.
    apply Nat.eqb_neq in Hp. rewrite Eo, Hp, Ed. reflexivity.
  - intros doc text_dict Eo Hp Ed Es.
    destruct (no_spans_no_boundary text_dict Es) as [Eb Ef].
    rewrite (extract_without_boundary fitz pdf_path doc text_dict st Eo Hp Ed Eb).
    now rewrite Ef.
  - intros doc text_dict e Eo Hp Ed Ee.
    apply (extract_without_boundary fitz pdf_path doc text_dict st Eo Hp Ed).
    unfold find_summary_boundary. now rewrite Ee.
  - intros doc text_dict b e Eo Hp Ed Eb Ee.
    unfold Extractor.extract_tsp_id_from_pdf, try_finally, try_except,
      Extractor.extract_body, mbind, open, lift, ret, close_if_bound, close.
    apply Nat.eqb_neq in Hp. rewrite Eo, Hp, Ed, Eb.
    unfold extract_from_header_section. rewrite Ee. reflexivity.
Qed.

Lemma extraction_errors_are_records_witness :
  fst (Extractor.extract_tsp_id_from_pdf Samples.no_such_file (lit "missing.pdf") entry)
  = Return (Error (lit "PDF processing error: no such file")) /\
  fst (Extractor.extract_tsp_id_from_pdf Samples.zero_page_pdf (lit "empty.pdf") entry)
  = Return (Error (lit "Empty PDF document")) /\
  fst (Extractor.extract_tsp_id_from_pdf Samples.unreadable_page_pdf (lit "bad.pdf") entry)
  = Return (Error (lit "PDF processing error: cannot read page")) /\
  fst (Extractor.extract_tsp_id_from_pdf
         (Samples.one_page_pdf (Samples.layout []) []) (lit "blank.pdf") entry)
  = Return (Error (lit "No TSP ID found using fallback method")) /\
  fst (Extractor.extract_tsp_id_from_pdf
         (Samples.one_page_pdf Samples.short_heading_box_page (lit "TSP 164082"))
         (lit "invoice.pdf") entry)
  = Return (fallback_extraction Samples.short_heading_box_page) /\
  fst (Extractor.extract_tsp_id_from_pdf
         (Samples.one_page_pdf Samples.short_block_box_page (lit "TSP 164082"))
         (lit "invoice.pdf") entry)
  = Return (Error (lit "No TSP ID found in header section")).
Proof.
  split; [|split; [|split; [|split; [|split]]]].
  - apply (proj1 (proj2 (extraction_errors_are_records
                           Samples.no_such_file (lit "missing.pdf") entry))).
    reflexivity.
  - apply (proj1 (proj2 (proj2 (extraction_errors_are_records
                           Samples.zero_page_pdf (lit "empty.pdf") entry)))
             {| page_count := 0;
                first_page_dict := Raise (lit "page not in document");
                first_page_text := Raise (lit "page not in document") |}).
    + reflexivity.
    + reflexivity.
  - apply (proj1 (proj2 (proj2 (proj2 (extraction_errors_are_records
                           Samples.unreadable_page_pdf (lit "bad.pdf") entry))))
             {| page_count := 1;
                first_page_dict := Raise (lit "cannot read page");
                first_page_text := Raise (lit "cannot read page") |}).
    + reflexivity.
    + simpl. discriminate.
    + reflexivity.
  - apply (proj1 (proj2 (proj2 (proj2 (proj2 (extraction_errors_are_records
                           (Samples.one_page_pdf (Samples.layout []) [])
                           (lit "blank.pdf") entry)))))
             {| page_count := 1;
                first_page_dict := Return (Samples.layout []);
                first_page_text := Return [] |}
             (Samples.layout [])).
    + reflexivity.
    + simpl. discriminate.
    + reflexivity.
    + reflexivity.
  - apply (proj1 (proj2 (proj2 (proj2 (proj2 (proj2
             (extraction_errors_are_records
                (Samples.one_page_pdf Samples.short_heading_box_page (lit "TSP 164082"))
                (lit "invoice.pdf") entry))))))
             {| page_count := 1;
                first_page_dict := Return Samples.short_heading_box_page;
                first_page_text := Return (lit "TSP 164082") |}
             Samples.short_heading_box_page (lit "list index out of range")).
    + reflexivity.
    + simpl. discriminate.
    + reflexivity.
    + vm_compute. reflexivity.
  - apply (proj2 (proj2 (proj2 (proj2 (proj2 (proj2
             (extraction_errors_are_records
                (Samples.one_page_pdf Samples.short_block_box_page (lit "TSP 164082"))
                (lit "invoice.pdf") entry))))))
             {| page_count := 1;
                first_page_dict := Return Samples.short_block_box_page;
                first_page_text := Return (lit "TSP 164082") |}
             Samples.short_block_box_page (Num 300, Num 314)
             (lit "list index out of range")).
    + reflexivity.
    + simpl. discriminate.
    + reflexivity.
    + vm_compute. reflexivity.
    + vm_compute. reflexivity.
Defined.

(** The layout-boundary extractor closes what it opened on every path:
    entered without a handle, the call leaves no handle open. *)
Lemma extract_releases_handle (fitz : Library) (pdf_path : str) :
  open_handles (snd (Extractor.extract_tsp_id_from_pdf fitz pdf_path entry)) = 0.
Proof.
  unfold Extractor.extract_tsp_id_from_pdf, try_finally, try_except,
    Extractor.extract_body, mbind, open, lift, ret, close_if_bound, close, entry.
  destruct (fitz pdf_path) as [doc|e]; simpl; [|reflexivity].
  destruct (page_count doc =? 0); simpl; [reflexivity|].
  destruct (first_page_dict doc) as [text_dict|e]; simpl; [|reflexivity].
  destruct (find_summary_boundary text_dict) as [b|]; simpl; [|reflexivity].
  destruct (extract_from_header_section text_dict b) as [tsp_id|]; simpl;
    [|reflexivity].
  destruct (negb (len tsp_id =? 0)); reflexivity.
Qed.

(** The first-match program closes the document only after it has read the
    page text: when the text is read, no handle stays open. *)
Lemma process_pdf_releases_after_read
  (fitz : Library) (pdf_path : str) (doc : Document) (page_text : str) :
  fitz pdf_path = Return doc -> page_count doc <> 0 ->
  first_page_text doc = Return page_text ->
  open_handles (snd (Pypdf2.process_pdf fitz pdf_path entry)) = 0.
Proof.
  intros Eo Hp Et. apply Nat.eqb_neq in Hp.
  unfold Pypdf2.process_pdf, try_except, mbind, open, lift, ret, close, entry.
  rewrite Eo, Hp, Et. simpl.
  destruct page_text as [|c r]; [reflexivity|].
  destruct (Pypdf2.extract_tsp_id_smart (c :: r)); reflexivity.
Qed.

(** C8, the defect.  In [main] of the first-match program the document is
    not closed when it has no pages, nor when reading the first page raises:
    the call returns its failure record with the handle still open. *)
Theorem process_pdf_leaks_handle :
  (fst (Pypdf2.process_pdf Samples.zero_page_pdf (lit "empty.pdf") entry)
   = Return (Pypdf2.failure (lit "No pages found in PDF") (lit "error") (lit "error")) /\
   open_handles (snd (Pypdf2.process_pdf Samples.zero_page_pdf (lit "empty.pdf") entry))
   = 1) /\
  (fst (Pypdf2.process_pdf Samples.unreadable_page_pdf (lit "bad.pdf") entry)
   = Return (Pypdf2.failure (lit "PDF processing error: cannot read page")
               (lit "error") (lit "error")) /\
   open_handles (snd (Pypdf2.process_pdf Samples.unreadable_page_pdf (lit "bad.pdf") entry))
   = 1) /\
  open_handles
    (snd (Extractor.extract_tsp_id_from_pdf Samples.zero_page_pdf (lit "empty.pdf") entry))
  = 0.
Proof.
  repeat split; vm_compute; reflexivity.
Qed.

(** ** The regular expression scan *)

Lemma take_drop_word (s : str) : s = take_word s ++ drop_word s.
Proof.
  induction s as [|c s IH]; [reflexivity|]. simpl.
  destruct (is_word c); simpl; [now f_equal | reflexivity].
Qed.

Lemma take_word_all (s : str) : forallb is_word (take_word s) = true.
Proof.
  induction s as [|c s IH]; [reflexivity|]. simpl.
  destruct (is_word c) eqn:E; simpl; [now rewrite E | reflexivity].
Qed.

Lemma drop_word_head (s : str) : Regex.word_opt (hd_error (drop_word s)) = false.
Proof.
  induction s as [|c s IH]; [reflexivity|]. simpl.
  destruct (is_word c) eqn:E; [exact IH | simpl; exact E].
Qed.

Lemma drop_word_length (s : str) : List.length (drop_word s) <= List.length s.
Proof.
  induction s as [|c s IH]; [simpl; lia|]. simpl.
  destruct (is_word c); simpl; lia.
Qed.

Lemma after_word (prev : option ascii) (u : str) :
  u <> [] -> forallb is_word u = true -> Regex.word_opt (after prev u) = true.
Proof.
  revert prev. induction u as [|c u IH]; intros prev Hne Hw; [congruence|].
  simpl in Hw. apply andb_true_iff in Hw. destruct Hw as [Hc Hu].
  destruct u as [|d u']; [exact Hc|].
  simpl. apply (IH (Some c)); [discriminate | exact Hu].
Qed.

Lemma pieces_not_nil (keep : ascii -> bool) (s : str) : pieces keep s <> [].
Proof.
  destruct s as [|c s]; simpl; [discriminate|].
  destruct (keep c); [destruct (pieces keep s)|]; discriminate.
Qed.

Lemma pieces_prefix (keep : ascii -> bool) (w rest : str) :
  forallb keep w = true ->
  exists h t, pieces keep rest = h :: t /\ pieces keep (w ++ rest) = (w ++ h) :: t.
Proof.
  intros Hw. induction w as [|c w IH].
  - destruct (pieces keep rest) as [|h t] eqn:E;
      [now apply pieces_not_nil in E|].
    exists h, t. simpl. auto.
  - simpl in Hw. apply andb_true_iff in Hw. destruct Hw as [Hc Hw].
    destruct (IH Hw) as (h & t & E1 & E2).
    exists h, t. split; [exact E1|]. simpl. now rewrite Hc, E2.
Qed.

Section Scan.
Variable lo : nat.
Variable hi : option nat.
Hypothesis lo_positive : 1 <= lo.

Lemma harvested_nil : harvested lo hi [] = false.
Proof.
  unfold harvested. simpl.
  replace (lo <=? 0) with false; [reflexivity|].
  symmetry. apply Nat.leb_gt. lia.
Qed.

Lemma scan_skip (u rest : str) (prev : option ascii) :
  Regex.scan lo hi prev (List.length u) (u ++ rest)
  = Regex.scan lo hi (after prev u) 0 rest.
Proof.
  revert prev. induction u as [|c u IH]; intros prev; simpl.
  - destruct rest; reflexivity.
  - apply IH.
Qed.

Lemma match_here_nonword (prev : option ascii) (c : ascii) (s : str) :
  is_word c = false -> Regex.match_here lo hi prev (c :: s) = None.
Proof.
  intros Hc. unfold Regex.match_here.
  destruct (Regex.word_boundary prev (nth_error (c :: s) 0)); [|reflexivity].
  assert (Hd : is_digit c = false).
  { destruct (is_digit c) eqn:E; [|reflexivity].
    apply digit_is_word in E. congruence. }
  simpl. rewrite Hd. simpl.
  replace (0 <? lo) with true; [reflexivity|].
  symmetry. apply Nat.ltb_lt. lia.
Qed.

Lemma scan_nonword (prev : option ascii) (c : ascii) (s : str) :
  is_word c = false ->
  Regex.scan lo hi prev 0 (c :: s) = Regex.scan lo hi (Some c) 0 s.
Proof.
  intros Hc. cbn [Regex.scan]. now rewrite (match_here_nonword prev c s Hc).
Qed.

Lemma scan_in_word (u rest : str) (prev : option ascii) :
  Regex.word_opt prev = true -> forallb is_word u = true ->
  Regex.scan lo hi prev 0 (u ++ rest) = Regex.scan lo hi (after prev u) 0 rest.
Proof.
  revert prev. induction u as [|c u IH]; intros prev Hp Hu; [reflexivity|].
  simpl in Hu. apply andb_true_iff in Hu. destruct Hu as [Hc Hu].
  cbn [app Regex.scan after]. unfold Regex.match_here.
  cbn [nth_error]. unfold Regex.word_boundary. cbn [Regex.word_opt].
  rewrite Hp, Hc. cbn [xorb]. now apply IH.
Qed.

Lemma close_match_sound (prev : option ascii) (s : str) (j j' : nat) :
  Regex.close_match lo prev s j = Some j' ->
  lo <= j' <= j /\
  Regex.word_boundary (Regex.char_before prev s j') (nth_error s j') = true.
Proof.
  induction j as [|j IH]; cbn [Regex.close_match].
  - destruct (0 <? lo) eqn:E; [discriminate|].
    apply Nat.ltb_ge in E.
    destruct (Regex.word_boundary _ _) eqn:B; [|discriminate].
    intros H. injection H as <-. split; [lia | exact B].
  - destruct (S j <? lo) eqn:E; [discriminate|].
    apply Nat.ltb_ge in E.
    destruct (Regex.word_boundary (Regex.char_before prev s (S j)) _) eqn:B.
    + intros H. injection H as <-. split; [lia | exact B].
    + intros H. destruct (IH H) as [Hj Hb]. split; [lia | exact Hb].
Qed.

Lemma close_match_hit (prev : option ascii) (s : str) (j : nat) :
  lo <= j ->
  Regex.word_boundary (Regex.char_before prev s j) (nth_error s j) = true ->
  Regex.close_match lo prev s j = Some j.
Proof.
  intros Hj Hb.
  assert (E : (j <? lo) = false) by (apply Nat.ltb_ge; lia).
  destruct j; cbn [Regex.close_match]; rewrite E, Hb; reflexivity.
Qed.

Lemma greedy_within (s : str) (h : option nat) :
  within h (Regex.greedy_digits h s) = true.
Proof.
  revert h. induction s as [|c s IH]; intros h; simpl.
  - destruct h; reflexivity.
  - destruct (is_digit c); [|destruct h; reflexivity].
    destruct h as [[|h]|]; simpl; [reflexivity | | reflexivity].
    apply (IH (Some h)).
Qed.

Lemma greedy_are_digits (s : str) (h : option nat) (j : nat) :
  j < Regex.greedy_digits h s ->
  exists c, nth_error s j = Some c /\ is_digit c = true.
Proof.
  revert h j. induction s as [|c s IH]; intros h j; simpl; [lia|].
  destruct (is_digit c) eqn:Ec; [|lia].
  destruct h as [[|h]|]; [lia | |]; intros Hj.
  - destruct j as [|j]; [exists c; auto|]. simpl. apply (IH (Some h)). lia.
  - destruct j as [|j]; [exists c; auto|]. simpl. apply (IH None). lia.
Qed.

Lemma greedy_all (w rest : str) (h : option nat) :
  forallb is_digit w = true -> within h (len w) = true ->
  Regex.word_opt (hd_error rest) = false ->
  Regex.greedy_digits h (w ++ rest) = len w.
Proof.
  intros Hw Hh Hr. revert h Hh. induction w as [|c w IH]; intros h Hh.
  - simpl. destruct rest as [|d rest]; [reflexivity|]. simpl in *.
    destruct (is_digit d) eqn:E; [|reflexivity].
    apply digit_is_word in E. congruence.
  - simpl in Hw. apply andb_true_iff in Hw. destruct Hw as [Hc Hw].
    cbn [app Regex.greedy_digits]. rewrite Hc.
    destruct h as [[|h]|]; simpl in Hh.
    + discriminate.
    + unfold len. simpl. f_equal. apply (IH Hw (Some h)). exact Hh.
    + unfold len. simpl. f_equal. apply (IH Hw None). reflexivity.
Qed.

Lemma nth_error_all (f : ascii -> bool) (w : str) :
  (forall j, j < List.length w ->
     exists c, nth_error w j = Some c /\ f c = true) ->
  forallb f w = true.
Proof.
  intros H. apply forallb_forall. intros x Hx.
  apply In_nth_error in Hx. destruct Hx as [j Hj].
  assert (Hlt : j < List.length w).
  { apply nth_error_Some. congruence. }
  destruct (H j Hlt) as (c & Ec & Hc). congruence.
Qed.

(** At the first character of a word the pattern matches exactly when the
    whole word is a digit run of an allowed length, and then it matches
    the whole word. *)
Lemma match_here_word (prev : option ascii) (c : ascii) (w rest : str) :
  Regex.word_opt prev = false ->
  forallb is_word (c :: w) = true ->
  Regex.word_opt (hd_error rest) = false ->
  Regex.match_here lo hi prev ((c :: w) ++ rest)
  = if harvested lo hi (c :: w) then Some (len (c :: w)) else None.
Proof.
  intros Hp Hw Hr.
  pose proof Hw as Hw'. simpl in Hw'. apply andb_true_iff in Hw'.
  destruct Hw' as [Hc Hw'].
  unfold Regex.match_here. cbn [app nth_error].
  unfold Regex.word_boundary at 1. cbn [Regex.word_opt]. rewrite Hp, Hc.
  cbn [xorb].
  change (c :: w ++ rest) with ((c :: w) ++ rest).
  set (word := c :: w) in *.
  assert (Hend : nth_error (word ++ rest) (len word) = hd_error rest).
  { unfold len. rewrite nth_error_app2 by lia. rewrite Nat.sub_diag.
    destruct rest; reflexivity. }
  destruct (harvested lo hi word) eqn:Eh.
  - unfold harvested in Eh. apply andb_true_iff in Eh. destruct Eh as [Eh Eu].
    apply andb_true_iff in Eh. destruct Eh as [Ed El]. apply Nat.leb_le in El.
    rewrite (greedy_all word rest hi Ed Eu Hr).
    apply close_match_hit; [exact El|].
    rewrite Hend. unfold len, word. cbn [List.length Regex.char_before].
    rewrite nth_error_app1 by (simpl; lia).
    destruct (nth_error (c :: w) (List.length w)) as [x|] eqn:Ex.
    + assert (Hx : is_word x = true).
      { apply nth_error_In in Ex.
        apply (proj1 (forallb_forall is_word (c :: w)) Hw x Ex). }
      unfold Regex.word_boundary. cbn [Regex.word_opt]. now rewrite Hx, Hr.
    + apply nth_error_None in Ex. simpl in Ex. lia.
  - destruct (Regex.close_match lo prev (word ++ rest)
                (Regex.greedy_digits hi (word ++ rest))) as [j'|] eqn:Ec;
      [|reflexivity].
    exfalso.
    destruct (close_match_sound _ _ _ _ Ec) as [[Hlo Hle] Hb].
    set (g := Regex.greedy_digits hi (word ++ rest)) in *.
    assert (Hg : g <= len word).
    { destruct (Nat.le_gt_cases g (len word)) as [H|H]; [exact H|].
      destruct (greedy_are_digits (word ++ rest) hi (len word) H)
        as (x & Ex & Hx).
      rewrite Hend in Ex. rewrite Ex in Hr. simpl in Hr.
      apply digit_is_word in Hx. congruence. }
    destruct j' as [|j]; [lia|].
    cbn [Regex.char_before] in Hb.
    destruct (greedy_are_digits (word ++ rest) hi j ltac:(lia))
      as (x & Ex & Hx).
    rewrite Ex in Hb. unfold Regex.word_boundary in Hb.
    cbn [Regex.word_opt] in Hb. rewrite (digit_is_word _ Hx) in Hb.
    assert (Hj : S j = len word).
    { destruct (Nat.lt_ge_cases (S j) (len word)) as [H|H]; [|lia].
      exfalso. unfold len in H.
      rewrite nth_error_app1 in Hb by exact H.
      destruct (nth_error word (S j)) as [y|] eqn:Ey.
      - assert (Hy : is_word y = true).
        { apply nth_error_In in Ey.
          apply (proj1 (forallb_forall is_word word) Hw y Ey). }
        simpl in Hb. rewrite Hy in Hb. discriminate.
      - apply nth_error_None in Ey. lia. }
    assert (Eg : g = len word) by lia.
    assert (Hd : forallb is_digit word = true).
    { apply nth_error_all. intros k Hk.
      destruct (greedy_are_digits (word ++ rest) hi k) as (y & Ey & Hy).
      - fold g. unfold len in Eg. lia.
      - rewrite nth_error_app1 in Ey by exact Hk. eauto. }
    pose proof (greedy_within (word ++ rest) hi) as Hu. fold g in Hu.
    rewrite Eg in Hu.
    unfold harvested in Eh. rewrite Hd, Hu in Eh.
    replace (lo <=? len word) with true in Eh; [discriminate|].
    symmetry. apply Nat.leb_le. lia.
Qed.

Lemma scan_word (prev : option ascii) (c : ascii) (w rest : str) :
  Regex.word_opt prev = false ->
  forallb is_word (c :: w) = true ->
  Regex.word_opt (hd_error rest) = false ->
  Regex.scan lo hi prev 0 ((c :: w) ++ rest)
  = (if harvested lo hi (c :: w) then [c :: w] else [])
    ++ Regex.scan lo hi (after prev (c :: w)) 0 rest.
Proof.
  intros Hp Hw Hr.
  pose proof (match_here_word prev c w rest Hp Hw Hr) as Hm.
  cbn [app] in Hm. cbn [app Regex.scan]. rewrite Hm.
  destruct (harvested lo hi (c :: w)).
  - unfold len. cbn [List.length firstn app after].
    rewrite firstn_app, Nat.sub_diag, firstn_all. cbn [firstn].
    rewrite app_nil_r. f_equal. apply scan_skip.
  - cbn [app after]. simpl in Hw. apply andb_true_iff in Hw.
    destruct Hw as [Hc Hw]. apply scan_in_word; [exact Hc | exact Hw].
Qed.

(** What the scan returns: the words of the text that are digit runs of
    an allowed length, in order. *)
Lemma scan_pieces (n : nat) :
  forall (s : str) (prev : option ascii),
    List.length s <= n ->
    Regex.word_opt prev = false ->
    Regex.scan lo hi prev 0 s = filter (harvested lo hi) (pieces is_word s).
Proof.
  induction n as [|n IH]; intros s prev Hn Hp.
  - destruct s; [|simpl in Hn; lia]. simpl. now rewrite harvested_nil.
  - destruct s as [|c s]; [simpl; now rewrite harvested_nil|].
    destruct (is_word c) eqn:Ec.
    + pose proof (take_drop_word (c :: s)) as Es.
      simpl in Es. rewrite Ec in Es.
      pose proof (take_word_all (c :: s)) as Hw. simpl in Hw. rewrite Ec in Hw.
      pose proof (drop_word_head s) as Hr.
      pose proof (drop_word_length s) as Hl.
      rewrite Es.
      change (c :: take_word s ++ drop_word s)
        with ((c :: take_word s) ++ drop_word s).
      rewrite (scan_word prev c (take_word s) (drop_word s) Hp Hw Hr).
      destruct (pieces_prefix is_word (c :: take_word s) (drop_word s) Hw)
        as (h & t & E1 & E2).
      rewrite E2.
      destruct (drop_word s) as [|d r] eqn:Ed.
      * simpl in E1. injection E1 as <- <-.
        rewrite (app_nil_r (c :: take_word s)).
        cbn [filter Regex.scan]. now rewrite app_nil_r.
      * simpl in Hr. simpl in E1. rewrite Hr in E1. injection E1 as <- <-.
        rewrite (app_nil_r (c :: take_word s)). rewrite (scan_nonword _ d r Hr).
        rewrite (IH r (Some d)); [| simpl in *; lia | exact Hr].
        cbn [filter]. destruct (harvested lo hi (c :: take_word s)); reflexivity.
    + rewrite (scan_nonword prev c s Ec).
      rewrite (IH s (Some c)); [| simpl in Hn; lia | exact Ec].
      simpl. rewrite Ec. cbn [filter]. now rewrite harvested_nil.
Qed.

Lemma findall_pieces (s : str) :
  Regex.findall lo hi s = filter (harvested lo hi) (pieces is_word s).
Proof.
  unfold Regex.findall. apply (scan_pieces (List.length s)); [lia | reflexivity].
Qed.
End Scan.

(** ** The first-match extractor *)

Lemma filter_filter (A : Type) (f g : A -> bool) (l : list A) :
  filter f (filter g l) = filter (fun x => g x && f x) l.
Proof.
  induction l as [|x l IH]; [reflexivity|]. simpl.
  destruct (g x); simpl; [destruct (f x)|]; now rewrite IH.
Qed.

Lemma find_ext_in (A : Type) (f g : A -> bool) (l : list A) :
  (forall x, In x l -> f x = g x) -> find f l = find g l.
Proof.
  induction l as [|x l IH]; intros H; [reflexivity|]. simpl.
  rewrite (H x (or_introl eq_refl)).
  destruct (g x); [reflexivity|]. apply IH. intros y Hy. apply H. now right.
Qed.

Lemma find_app (A : Type) (f : A -> bool) (a b : list A) :
  find f (a ++ b) = match find f a with Some x => Some x | None => find f b end.
Proof.
  induction a as [|x a IH]; [reflexivity|]. simpl.
  destruct (f x); [reflexivity | exact IH].
Qed.

Lemma find_none (A : Type) (f : A -> bool) (l : list A) :
  (forall x, In x l -> f x = false) -> find f l = None.
Proof.
  induction l as [|x l IH]; intros H; [reflexivity|]. simpl.
  rewrite (H x (or_introl eq_refl)). apply IH. intros y Hy. apply H. now right.
Qed.

(** The pattern [\b(\d+)\b] harvests the digit words. *)
Lemma findall_digits_words (s : str) : Regex.findall_digits s = digit_words s.
Proof.
  unfold Regex.findall_digits, digit_words, words.
  rewrite (findall_pieces 1 None (le_n 1)), filter_filter.
  apply filter_ext. intros w. unfold harvested, nonempty, within.
  rewrite andb_true_r. destruct w as [|c w]; [reflexivity|].
  unfold len. simpl. now rewrite andb_true_r.
Qed.

(** The pattern [\b(\d{6,8})\b] harvests the digit words of 6 to 8 digits. *)
Lemma findall_6_8_words (s : str) :
  Regex.findall_6_8 s
  = filter (fun w => (6 <=? len w) && (len w <=? 8)) (digit_words s).
Proof.
  unfold Regex.findall_6_8, digit_words, words.
  rewrite (findall_pieces 6 (Some 8)) by lia. rewrite !filter_filter.
  apply filter_ext. intros w. unfold harvested, nonempty, within.
  destruct w as [|c w]; [reflexivity|].
  unfold len. simpl. now rewrite andb_assoc.
Qed.

Lemma digits_are_digit_chars (s : str) :
  forallb is_digit s = true -> forallb is_digit_char s = true.
Proof.
  rewrite !forallb_forall. intros H x Hx. unfold is_digit_char.
  now rewrite (H x Hx).
Qed.

Lemma extract_tsp_id_smart_words (s : str) :
  Pypdf2.extract_tsp_id_smart s
  = find (fun w => len w =? 6) (digit_words s).
Proof.
  unfold Pypdf2.extract_tsp_id_smart. rewrite findall_digits_words.
  apply find_ext_in. intros w Hw.
  unfold digit_words in Hw. apply filter_In in Hw. destruct Hw as [Hw Hd].
  unfold words in Hw. apply filter_In in Hw. destruct Hw as [_ Hn].
  destruct w as [|c w]; [discriminate|].
  unfold isdigit. rewrite (digits_are_digit_chars _ Hd).
  destruct (len (c :: w) =? 6); reflexivity.
Qed.

Lemma pieces_separator (keep : ascii -> bool) (a b : str) (d : ascii) :
  keep d = false -> pieces keep (a ++ d :: b) = pieces keep a ++ pieces keep b.
Proof.
  intros Hd. induction a as [|c a IH]; simpl.
  - now rewrite Hd.
  - rewrite IH. destruct (keep c); [|reflexivity].
    destruct (pieces keep a) as [|w ws] eqn:E; [|reflexivity].
    now apply pieces_not_nil in E.
Qed.

Lemma after_last (prev : option ascii) (a : str) (d : ascii) :
  after prev (a ++ [d]) = Some d.
Proof. revert prev. induction a as [|c a IH]; intros prev; simpl; auto. Qed.

(** The words of a text cut at a word boundary are the words of its two
    parts. *)
Lemma words_app (a b : str) :
  Regex.word_opt (after None a) = false \/ Regex.word_opt (hd_error b) = false ->
  words (a ++ b) = words a ++ words b.
Proof.
  unfold words. intros [Ha | Hb].
  - destruct a as [|c a'] eqn:Ea; [reflexivity|]. rewrite <- Ea in *.
    destruct (exists_last (l := a)) as (a0 & d & E); [congruence|].
    rewrite E in *. rewrite after_last in Ha. simpl in Ha.
    rewrite <- app_assoc. cbn [app].
    rewrite !(pieces_separator is_word a0 _ d Ha).
    rewrite !filter_app. simpl. now rewrite app_nil_r.
  - destruct b as [|d b].
    + rewrite (app_nil_r a). simpl. now rewrite app_nil_r.
    + simpl in Hb. rewrite (pieces_separator is_word a b d Hb).
      rewrite filter_app. simpl. now rewrite Hb.
Qed.

Lemma digit_words_app (a b : str) :
  Regex.word_opt (after None a) = false \/ Regex.word_opt (hd_error b) = false ->
  digit_words (a ++ b) = digit_words a ++ digit_words b.
Proof.
  intros H. unfold digit_words. rewrite (words_app a b H). apply filter_app.
Qed.

Lemma after_rev (prev : option ascii) (l : str) :
  after prev (rev l) = (match l with [] => prev | c :: _ => Some c end).
Proof. destruct l as [|c l]; [reflexivity|]. simpl. apply after_last. Qed.

Lemma words_single (w : str) :
  w <> [] -> forallb is_word w = true -> words w = [w].
Proof.
  intros Hne Hw. unfold words.
  destruct (pieces_prefix is_word w [] Hw) as (h & t & E1 & E2).
  simpl in E1. injection E1 as <- <-. rewrite !app_nil_r in E2. rewrite E2.
  destruct w; [congruence | reflexivity].
Qed.

(** A text splits into a part that is empty or ends with a separator and
    the word characters that follow it. *)
Lemma split_trailing_word (pre : str) :
  exists pre0 u,
    pre = pre0 ++ u /\
    Regex.word_opt (after None pre0) = false /\
    forallb is_word u = true.
Proof.
  exists (rev (drop_word (rev pre))), (rev (take_word (rev pre))).
  split; [|split].
  - rewrite <- rev_app_distr, <- take_drop_word. symmetry. apply rev_involutive.
  - rewrite after_rev. pose proof (drop_word_head (rev pre)) as H.
    destruct (drop_word (rev pre)); [reflexivity | exact H].
  - apply forallb_rev, take_word_all.
Qed.

(** Wherever the phrase stands, its five digit runs are harvested after
    those of the text before it, when no word character follows it. *)
Lemma digit_words_around_phrase (pre post : str) :
  Regex.word_opt (hd_error post) = false ->
  exists kept,
    (forall w, In w kept -> In w (digit_words pre)) /\
    digit_words (pre ++ phrase ++ post)
    = kept ++ [lit "2077"; lit "06"; lit "02"; lit "2025"; lit "164082"]
           ++ digit_words post.
Proof.
  intros Hpost.
  destruct (split_trailing_word pre) as (pre0 & u & -> & H0 & Hu).
  exists (digit_words pre0). split.
  - intros w Hw. rewrite (digit_words_app pre0 u (or_introl H0)).
    apply in_or_app. now left.
  - change phrase
      with (lit "order" ++ lit " 2077 dated 06/02/2025 ref 164082").
    replace ((pre0 ++ u)
             ++ (lit "order" ++ lit " 2077 dated 06/02/2025 ref 164082") ++ post)
      with (pre0 ++ (u ++ lit "order")
                 ++ (lit " 2077 dated 06/02/2025 ref 164082" ++ post))
      by (now rewrite <- !app_assoc).
    rewrite (digit_words_app pre0 _ (or_introl H0)).
    rewrite (digit_words_app (u ++ lit "order")
               (lit " 2077 dated 06/02/2025 ref 164082" ++ post)
               (or_intror eq_refl)).
    rewrite (digit_words_app (lit " 2077 dated 06/02/2025 ref 164082") post
               (or_intror Hpost)).
    assert (Eword : digit_words (u ++ lit "order") = []).
    { unfold digit_words. rewrite words_single.
      - cbn [filter]. rewrite forallb_app.
        replace (forallb is_digit (lit "order")) with false by reflexivity.
        now rewrite andb_false_r.
      - destruct u; discriminate.
      - rewrite forallb_app, Hu. reflexivity. }
    rewrite Eword. reflexivity.
Qed.

(** C6 as stated fails.  A 6-digit run glued to letters is a maximal digit
    run but is not harvested, so a later run is returned; a text that
    contains the phrase after an earlier 6-digit word returns that earlier
    word; and a digit right after the phrase turns its last run into a
    7-digit word, so nothing is returned. *)
Lemma first_match_is_not_first_digit_run :
  (first_six_digit_run (lit "ID123456 654321") = Some (lit "123456") /\
   Pypdf2.extract_tsp_id_smart (lit "ID123456 654321") = Some (lit "654321")) /\
  (contains phrase (lit "700123 order 2077 dated 06/02/2025 ref 164082") = true /\
   Pypdf2.extract_tsp_id_smart (lit "700123 order 2077 dated 06/02/2025 ref 164082")
   = Some (lit "700123")) /\
  (contains phrase (lit "order 2077 dated 06/02/2025 ref 1640825") = true /\
   Pypdf2.extract_tsp_id_smart (lit "order 2077 dated 06/02/2025 ref 1640825")
   = None).
Proof.
  repeat split; vm_compute; reflexivity.
Qed.

(** C6, amended.  The first-match extractor harvests, in order of
    appearance, the digit runs that stand as words of their own (maximal
    runs of letters, digits and underscores that consist of digits only)
    and returns the first of them whose length is exactly 6, or nothing
    when there is none.  On the phrase
    ["order 2077 dated 06/02/2025 ref 164082"] the harvest is
    2077, 06, 02, 2025, 164082 and the result is ["164082"]; the same
    result is returned on every text that contains the phrase with no word
    character right after it and no 6-digit word of digits before it. *)
Theorem extract_tsp_id_smart_spec :
  (forall page_text,
      Regex.findall_digits page_text = digit_words page_text /\
      Pypdf2.extract_tsp_id_smart page_text
      = find (fun w => len w =? 6) (digit_words page_text)) /\
  Regex.findall_digits phrase
  = [lit "2077"; lit "06"; lit "02"; lit "2025"; lit "164082"] /\
  Pypdf2.extract_tsp_id_smart phrase = Some (lit "164082") /\
  (forall pre post,
      Regex.word_opt (hd_error post) = false ->
      (forall w, In w (digit_words pre) -> len w <> 6) ->
      Pypdf2.extract_tsp_id_smart (pre ++ phrase ++ post) = Some (lit "164082")).
Proof.
  split; [|split; [|split]].
  - intros page_text. split;
      [apply findall_digits_words | apply extract_tsp_id_smart_words].
  - vm_compute. reflexivity.
  - vm_compute. reflexivity.
  - intros pre post Hpost Hnone.
    rewrite extract_tsp_id_smart_words.
    destruct (digit_words_around_phrase pre post Hpost) as (kept & Hk & ->).
    rewrite find_app.
    rewrite (find_none _ (fun w => len w =? 6) kept).
    + reflexivity.
    + intros w Hw. apply Nat.eqb_neq. now apply Hnone, Hk.
Qed.

Lemma extract_tsp_id_smart_spec_witness :
  Pypdf2.extract_tsp_id_smart
    (lit "Invoice 12345, " ++ phrase ++ lit ". Total 3,286.65")
  = Some (lit "164082").
Proof.
  apply (proj2 (proj2 (proj2 extract_tsp_id_smart_spec))
           (lit "Invoice 12345, ") (lit ". Total 3,286.65")).
  - reflexivity.
  - intros w Hw. vm_compute in Hw.
    destruct Hw as [<- | []]. vm_compute. discriminate.
Defined.

(** ** Worked examples *)

Example strip_ex : strip (lit "  TSP 164082 ") = lit "TSP 164082".
Proof. reflexivity. Qed.

Example int_ex : PyStr.int (lit "020125") = Some 20125%Z.
Proof. reflexivity. Qed.

Example int_underscore_ex : PyStr.int (lit " +1_000 ") = Some 1000%Z.
Proof. reflexivity. Qed.

Example int_bad_ex : PyStr.int (lit "12a") = None.
Proof. reflexivity. Qed.

Example findall_ex :
  Regex.findall_6_8 (lit "TSP 164082 x1234567 12345678 123456789 55-7654321")
  = [lit "164082"; lit "12345678"; lit "7654321"].
Proof. reflexivity. Qed.

Example findall_digits_ex :
  Regex.findall_digits (lit "order 2077 dated 06/02/2025 ref 164082")
  = [lit "2077"; lit "06"; lit "02"; lit "2025"; lit "164082"].
Proof. reflexivity. Qed.

Example validator_examples :
  is_valid_tsp_id_candidate (lit "164082") (lit "TSP 164082") = true /\
  is_valid_tsp_id_candidate (lit "020125") (lit "020125") = false /\
  is_valid_tsp_id_candidate (lit "20250201") (lit "20250201") = false /\
  is_valid_tsp_id_candidate (lit "164082")
    (lit "Please quote the number 164082 in every letter you send us") = false.
Proof. repeat split; vm_compute; reflexivity. Qed.

(** The end-to-end page of the specification. *)
Example invoice_page_extraction :
  exists result,
    fst (Extractor.extract_tsp_id_from_pdf
           (Samples.one_page_pdf Samples.invoice_page (lit "TSP 164082"))
           (lit "invoice.pdf") entry)
    = Return (Found result) /\
    tspId result = lit "164082" /\
    method result = lit "position_based_extraction" /\
    (confidence result == 0.99)%Q.
Proof.
  eexists. split; [vm_compute; reflexivity|].
  split; [reflexivity|]. split; [reflexivity|]. vm_compute. reflexivity.
Qed.

(** * Further properties of the code *)

(** ** The rules of the validator *)

Lemma forallb_firstn (A : Type) (f : A -> bool) (n : nat) (l : list A) :
  forallb f l = true -> forallb f (firstn n l) = true.
Proof.
  rewrite !forallb_forall. intros H x Hx. apply H.
  rewrite <- (firstn_skipn n l). apply in_or_app. now left.
Qed.

Lemma forallb_skipn (A : Type) (f : A -> bool) (n : nat) (l : list A) :
  forallb f l = true -> forallb f (skipn n l) = true.
Proof.
  rewrite !forallb_forall. intros H x Hx. apply H.
  rewrite <- (firstn_skipn n l). apply in_or_app. now right.
Qed.

Lemma digit_value_range (c : ascii) :
  is_digit c = true -> (0 <= digit_value c <= 9)%Z.
Proof. intros H. apply digit_code in H. unfold digit_value. lia. Qed.

Lemma fold_digits_bound (s : str) :
  forall acc,
    (0 <= acc)%Z -> forallb is_digit s = true ->
    (acc * 10 ^ Z.of_nat (len s)
     <= fold_left (fun acc c => (10 * acc + digit_value c)%Z) s acc
     < (acc + 1) * 10 ^ Z.of_nat (len s))%Z.
Proof.
  induction s as [|c s IH]; intros acc Hacc Hd.
  - simpl. lia.
  - simpl in Hd. apply andb_true_iff in Hd. destruct Hd as [Hc Hs].
    apply digit_value_range in Hc.
    unfold len in *. cbn [fold_left List.length].
    rewrite Nat2Z.inj_succ, Z.pow_succ_r by lia.
    specialize (IH (10 * acc + digit_value c)%Z ltac:(lia) Hs).
    assert (Hp : (0 < 10 ^ Z.of_nat (List.length s))%Z)
      by (apply Z.pow_pos_nonneg; lia).
    nia.
Qed.

(** A digit string of [n] digits reads as a value below [10 ^ n]. *)
Lemma digits_value_bound (s : str) :
  forallb is_digit s = true ->
  (0 <= digits_value s < 10 ^ Z.of_nat (len s))%Z.
Proof.
  intros Hd. pose proof (fold_digits_bound s 0%Z ltac:(lia) Hd) as H.
  unfold digits_value. lia.
Qed.

Lemma to_int_digits (s : str) :
  s <> [] -> forallb is_digit s = true -> to_int s = Return (digits_value s).
Proof.
  intros Hne Hd. unfold to_int. now rewrite (int_of_digits s Hne Hd).
Qed.

Lemma slice_digits (i j : nat) (s : str) :
  forallb is_digit s = true -> forallb is_digit (slice i j s) = true.
Proof. intros H. unfold slice. now apply forallb_firstn, forallb_skipn. Qed.

Lemma slice_len (i j : nat) (s : str) :
  j <= len s -> len (slice i j s) = j - i.
Proof.
  intros H. unfold slice, len in *. rewrite length_firstn, length_skipn. lia.
Qed.

Lemma slice_from_is_slice (i : nat) (s : str) :
  slice_from i s = slice i (len s) s.
Proof.
  unfold slice_from, slice, len. symmetry. apply firstn_all2.
  rewrite length_skipn. lia.
Qed.

Lemma len_not_nil (s : str) : 0 < len s -> s <> [].
Proof. destruct s; simpl; [lia | discriminate]. Qed.

Lemma field_int (i j : nat) (s : str) :
  forallb is_digit s = true -> i < j -> j <= len s ->
  to_int (slice i j s) = Return (field i j s).
Proof.
  intros Hd Hij Hj. apply to_int_digits; [|now apply slice_digits].
  apply len_not_nil. rewrite slice_len by exact Hj. lia.
Qed.

Lemma field_bound (i j : nat) (s : str) :
  forallb is_digit s = true -> j <= len s ->
  (0 <= field i j s < 10 ^ Z.of_nat (j - i))%Z.
Proof.
  intros Hd Hj. unfold field.
  rewrite <- (slice_len i j s Hj).
  apply digits_value_bound. now apply slice_digits.
Qed.

(** X1.  The date rule on digit strings.  On 6 digits it reads month and day
    from the first four; the year test on the last two never fails.  On 8
    digits it reads year, month and day.  On any other length the rule does
    not fire. *)
Theorem date_rule_fields (number : str) :
  forallb is_digit number = true ->
  (len number = 6 ->
   is_likely_date number
   = in_range 1 12 (field 0 2 number) && in_range 1 31 (field 2 4 number)) /\
  (len number = 8 ->
   is_likely_date number
   = in_range 1900 2100 (field 0 4 number) && in_range 1 12 (field 4 6 number)
     && in_range 1 31 (field 6 8 number)) /\
  (len number <> 6 -> len number <> 8 -> is_likely_date number = false).
Proof.
  intros Hd. split; [|split].
  - intros H6. unfold is_likely_date. rewrite H6. cbn [Nat.eqb].
    rewrite slice_from_is_slice, H6.
    rewrite !field_int by (try exact Hd; lia). simpl.
    pose proof (field_bound 4 6 number Hd ltac:(lia)) as Hy.
    change (Z.of_nat (6 - 4)) with 2%Z in Hy.
    replace ((0 <=? field 4 6 number)%Z && (field 4 6 number <=? 99)%Z)
      with true.
    + unfold in_range. now rewrite andb_true_r.
    + symmetry. apply andb_true_iff. split; apply Z.leb_le; lia.
  - intros H8. unfold is_likely_date. rewrite H8. cbn [Nat.eqb].
    rewrite slice_from_is_slice, H8.
    rewrite !field_int by (try exact Hd; lia). reflexivity.
  - intros H6 H8. unfold is_likely_date.
    apply Nat.eqb_neq in H6. apply Nat.eqb_neq in H8. now rewrite H6, H8.
Qed.

Lemma date_rule_fields_witness :
  is_likely_date (lit "020125") = true /\
  is_likely_date (lit "20250201") = true /\
  is_likely_date (lit "1640820") = false.
Proof.
  split; [|split].
  - rewrite (proj1 (date_rule_fields (lit "020125") eq_refl) eq_refl).
    reflexivity.
  - rewrite (proj1 (proj2 (date_rule_fields (lit "20250201") eq_refl)) eq_refl).
    reflexivity.
  - apply (proj2 (proj2 (date_rule_fields (lit "1640820") eq_refl)));
      vm_compute; discriminate.
Defined.

Lemma zip_shape_length (number : str) :
  is_likely_zip_code number = true -> len number = 5 \/ len number = 9.
Proof.
  unfold is_likely_zip_code.
  destruct (len number =? 5) eqn:E5; [apply Nat.eqb_eq in E5; auto|].
  destruct (len number =? 9) eqn:E9; [apply Nat.eqb_eq in E9; auto|].
  discriminate.
Qed.

(** X2.  The zip-code rule never decides: it recognises only strings of 5 or
    9 characters, which the length rule has already rejected, so the
    validator agrees everywhere with the validator that has the rule taken
    out. *)
Theorem zip_rule_redundant (number context_text : str) :
  is_valid_tsp_id_candidate number context_text
  = is_valid_without_zip_rule number context_text.
Proof.
  unfold is_valid_tsp_id_candidate, is_valid_without_zip_rule,
    min_tsp_id_length, max_tsp_id_length.
  destruct (6 <=? len number) eqn:H6; [|reflexivity].
  destruct (len number <=? 8) eqn:H8; [|reflexivity].
  simpl. destruct (to_int number) as [v|e]; [|reflexivity]. simpl.
  destruct (v <? 100000)%Z; [reflexivity|].
  destruct (phone_shape number); [reflexivity|].
  destruct (is_likely_date number); [reflexivity|].
  destruct (is_likely_zip_code number) eqn:Hz; [|reflexivity].
  apply zip_shape_length in Hz.
  apply Nat.leb_le in H6. apply Nat.leb_le in H8. lia.
Qed.

(** X3.  The validator on digit strings, rule by rule: a digit string is
    accepted exactly when it has 6 to 8 digits, reads as at least 100000,
    is not a date shape, and its context is at most 50 characters once
    trimmed. *)
Theorem validator_on_digits (number context_text : str) :
  forallb is_digit number = true ->
  is_valid_tsp_id_candidate number context_text
  = (6 <=? len number) && (len number <=? 8)
    && (100000 <=? digits_value number)%Z
    && negb (is_likely_date number)
    && (len (strip context_text) <=? 50).
Proof.
  intros Hd. unfold is_valid_tsp_id_candidate, min_tsp_id_length, max_tsp_id_length.
  destruct (6 <=? len number) eqn:H6; [|reflexivity].
  destruct (len number <=? 8) eqn:H8; [|reflexivity].
  apply Nat.leb_le in H6. apply Nat.leb_le in H8.
  rewrite (to_int_digits number (len_not_nil number ltac:(lia)) Hd).
  simpl. rewrite (Z.leb_antisym (digits_value number) 100000).
  destruct (digits_value number <? 100000)%Z; [reflexivity|]. simpl.
  destruct (phone_shape number) eqn:Hp;
    [apply phone_shape_long in Hp; lia|].
  destruct (is_likely_date number); [reflexivity|]. simpl.
  destruct (is_likely_zip_code number) eqn:Hz;
    [apply zip_shape_length in Hz; lia|].
  rewrite (Nat.leb_antisym 50 (len (strip context_text))).
  destruct (50 <? len (strip context_text)); reflexivity.
Qed.

Lemma validator_on_digits_witness :
  is_valid_tsp_id_candidate (lit "164082") (lit "TSP 164082") = true.
Proof.
  rewrite (validator_on_digits (lit "164082") (lit "TSP 164082") eq_refl).
  vm_compute. reflexivity.
Defined.

(** X4.  Every digit string the validator accepts reads as a value between
    100000 and 99999999; a 6-digit string that starts with 0 is therefore
    never accepted. *)
Theorem accepted_value_range (number context_text : str) :
  forallb is_digit number = true ->
  is_valid_tsp_id_candidate number context_text = true ->
  (100000 <= digits_value number <= 99999999)%Z /\
  (len number = 6 -> hd_error number <> Some "0"%char).
Proof.
  intros Hd Hv. pose proof (valid_length number context_text Hv) as Hl.
  assert (Hlow : (100000 <= digits_value number)%Z).
  { destruct (Z.lt_ge_cases (digits_value number) 100000) as [H|H]; [|exact H].
    rewrite (invalid_small_value number context_text (digits_value number)) in Hv;
      [discriminate | | exact H].
    apply int_of_digits; [apply len_not_nil; lia | exact Hd]. }
  split.
  - split; [exact Hlow|].
    pose proof (digits_value_bound number Hd) as Hb.
    assert (10 ^ Z.of_nat (len number) <= 10 ^ 8)%Z
      by (apply Z.pow_le_mono_r; lia).
    change (10 ^ 8)%Z with 100000000%Z in H. lia.
  - intros H6 Hz. destruct number as [|c r]; [discriminate|].
    simpl in Hz. injection Hz as ->.
    simpl in Hd.
    pose proof (digits_value_bound r Hd) as Hb.
    unfold len in H6. simpl in H6.
    replace (len r) with 5 in Hb by (unfold len; lia).
    change (10 ^ Z.of_nat 5)%Z with 100000%Z in Hb.
    unfold digits_value in Hlow, Hb. cbn [fold_left] in Hlow.
    change (10 * 0 + digit_value "0"%char)%Z with 0%Z in Hlow. lia.
Qed.

Lemma accepted_value_range_witness :
  (100000 <= digits_value (lit "164082") <= 99999999)%Z.
Proof.
  apply (accepted_value_range (lit "164082") (lit "TSP 164082")).
  - reflexivity.
  - vm_compute. reflexivity.
Defined.

Lemma valid_rules (number context_text : str) :
  is_valid_tsp_id_candidate number context_text = true ->
  6 <= len number <= 8 /\
  (exists v, PyStr.int number = Some v /\ (100000 <= v)%Z) /\
  is_likely_date number = false /\
  len (strip context_text) <= 50.
Proof.
  intros Hv. split; [exact (valid_length number context_text Hv)|].
  revert Hv.
  unfold is_valid_tsp_id_candidate, to_int.
  destruct (negb _); [discriminate|].
  destruct (PyStr.int number) as [v|]; [|discriminate]. simpl.
  destruct (v <? 100000)%Z eqn:Ev; [discriminate|].
  destruct (phone_shape number); [discriminate|].
  destruct (is_likely_date number); [discriminate|].
  destruct (is_likely_zip_code number); [discriminate|].
  destruct (50 <? len (strip context_text)) eqn:Ec; [discriminate|].
  intros _. apply Z.ltb_ge in Ev. apply Nat.ltb_ge in Ec.
  split; [exists v; auto | auto].
Qed.

(** ** The harvest *)

Lemma findall_6_8_in (text n : str) :
  In n (Regex.findall_6_8 text) ->
  forallb is_digit n = true /\ 6 <= len n <= 8 /\ In n (words text).
Proof.
  rewrite findall_6_8_words. intros H. apply filter_In in H.
  destruct H as [H Hl]. unfold digit_words in H. apply filter_In in H.
  destruct H as [Hw Hd]. apply andb_true_iff in Hl. destruct Hl as [H6 H8].
  apply Nat.leb_le in H6. apply Nat.leb_le in H8. auto.
Qed.

(** X5.  The harvest pattern [\b(\d{6,8})\b] returns, in order, exactly the
    words of the text that consist of 6 to 8 digits: a run with a letter,
    an underscore or a further digit next to it is never harvested. *)
Theorem harvest_pattern_digit_words (text : str) :
  Regex.findall_6_8 text
  = filter (fun w => forallb is_digit w && (6 <=? len w) && (len w <=? 8))
           (words text).
Proof.
  rewrite findall_6_8_words. unfold digit_words. rewrite filter_filter.
  apply filter_ext. intros w. now rewrite andb_assoc.
Qed.

Lemma digit_value_of_int (number : str) (v : Z) :
  forallb is_digit number = true -> 0 < len number ->
  PyStr.int number = Some v -> v = digits_value number.
Proof.
  intros Hd Hl Hv.
  rewrite (int_of_digits number (len_not_nil number Hl) Hd) in Hv. congruence.
Qed.

Lemma span_candidate_invariant (span : Span) (c : Candidate) :
  In c (span_candidates span) ->
  forallb is_digit (number c) = true /\
  6 <= len (number c) <= 8 /\
  (100000 <= digits_value (number c))%Z /\
  is_likely_date (number c) = false /\
  In (number c) (words (text c)) /\
  len (strip (text c)) <= 50 /\
  position_score c = calculate_position_score (bbox c).
Proof.
  intros H. apply span_candidates_in in H.
  destruct H as (Et & Eb & Ep & Hn & Hv).
  apply findall_6_8_in in Hn. destruct Hn as (Hd & Hl & Hw).
  apply valid_rules in Hv. destruct Hv as (_ & (v & Ev & Hlow) & Hdate & Hc).
  rewrite (digit_value_of_int (number c) v Hd ltac:(lia) Ev) in Hlow.
  rewrite Et, Eb. auto 10.
Qed.

(** X6.  Every candidate the harvester builds, from any list of blocks, has
    a number of 6 to 8 digits that reads as at least 100000 and is not a
    date shape; the number is a word of the candidate's text, the trimmed
    text has at most 50 characters, and the position score is that of the
    candidate's box. *)
Theorem candidate_invariant (header_blocks : list Block) (c : Candidate) :
  In c (extract_tsp_id_candidates header_blocks) ->
  forallb is_digit (number c) = true /\
  6 <= len (number c) <= 8 /\
  (100000 <= digits_value (number c))%Z /\
  is_likely_date (number c) = false /\
  In (number c) (words (text c)) /\
  len (strip (text c)) <= 50 /\
  position_score c = calculate_position_score (bbox c).
Proof.
  unfold extract_tsp_id_candidates. intros H. apply in_flat_map in H.
  destruct H as (span & _ & H). now apply span_candidate_invariant in H.
Qed.

Lemma candidate_invariant_witness :
  forallb is_digit (lit "164082") = true /\
  6 <= len (lit "164082") <= 8 /\
  (100000 <= digits_value (lit "164082"))%Z /\
  is_likely_date (lit "164082") = false /\
  In (lit "164082") (words (lit "TSP 164082")) /\
  len (strip (lit "TSP 164082")) <= 50 /\
  calculate_position_score (Samples.box 50 50 120 62)
  = calculate_position_score (Samples.box 50 50 120 62).
Proof.
  apply (candidate_invariant
           (get_blocks Samples.no_heading_page)
           {| number := lit "164082"; text := lit "TSP 164082";
              bbox := Samples.box 50 50 120 62;
              position_score :=
                calculate_position_score (Samples.box 50 50 120 62) |}).
  vm_compute. left. reflexivity.
Defined.

(** ** The confidence *)

(** X7.  The confidence calculator returns the base of the method (0.98
    position based, 0.85 fallback, 0.95 otherwise) plus the bonus of the
    length (0.01, 0.005, 0.002 for 6, 7, 8 characters, else nothing); the
    value is always between 0.85 and 0.99, so the clamp to [[0,1]] never
    changes it. *)
Theorem confidence_value (tsp_id method : str) :
  (calculate_confidence tsp_id method == base_of method + bonus_of (len tsp_id))%Q /\
  (0.85 <= calculate_confidence tsp_id method <= 0.99)%Q.
Proof.
  unfold calculate_confidence, base_of, bonus_of.
  destruct (PyStr.eqb method (lit "position_based"));
    [|destruct (PyStr.eqb method (lit "fallback"))];
    (destruct (len tsp_id =? 6);
      [|destruct (len tsp_id =? 7); [|destruct (len tsp_id =? 8)]]);
    vm_compute; (split; [reflexivity | split; discriminate]).
Qed.

(** ** What a successful extraction returns *)

Lemma filter_head (A : Type) (f : A -> bool) (l : list A) (x : A) (rest : list A) :
  filter f l = x :: rest ->
  exists l1 l2,
    l = l1 ++ x :: l2 /\ (forall y, In y l1 -> f y = false) /\ f x = true.
Proof.
  induction l as [|a l IH]; simpl; [discriminate|].
  destruct (f a) eqn:Ea.
  - intros E. injection E as -> _. exists [], l. repeat split; auto.
    intros y [].
  - intros E. destruct (IH E) as (l1 & l2 & -> & H1 & Hx).
    exists (a :: l1), l2. repeat split; auto.
    intros y [<- | Hy]; auto.
Qed.

(** X8.  The fallback returns the first 6-to-8 digit word of the page text
    that the validator accepts with an empty context: every harvested word
    before it is rejected; and it fails exactly when the validator rejects
    every harvested word. *)
Theorem fallback_first_accepted (text_dict : TextDict) :
  (forall result,
      fallback_extraction text_dict = Found result ->
      exists before later,
        Regex.findall_6_8 (all_text text_dict) = before ++ tspId result :: later /\
        (forall n, In n before -> is_valid_tsp_id_candidate n [] = false) /\
        is_valid_tsp_id_candidate (tspId result) [] = true) /\
  (forall e,
      fallback_extraction text_dict = Error e ->
      e = lit "No TSP ID found using fallback method" /\
      forall n, In n (Regex.findall_6_8 (all_text text_dict)) ->
                is_valid_tsp_id_candidate n [] = false).
Proof.
  unfold fallback_extraction.
  destruct (filter (fun c => is_valid_tsp_id_candidate c [])
                   (Regex.findall_6_8 (all_text text_dict)))
    as [|tsp_id rest] eqn:Ef; split.
  - intros result E. discriminate.
  - intros e E. injection E as <-. split; [reflexivity|].
    intros n Hn.
    destruct (is_valid_tsp_id_candidate n []) eqn:Ev; [|reflexivity].
    assert (Hin : In n (filter (fun c => is_valid_tsp_id_candidate c [])
                               (Regex.findall_6_8 (all_text text_dict))))
      by (apply filter_In; auto).
    rewrite Ef in Hin. destruct Hin.
  - intros result E. injection E as <-. simpl.
    apply filter_head in Ef. exact Ef.
  - intros e E. discriminate.
Qed.

Lemma fallback_first_accepted_witness :
  exists before later,
    Regex.findall_6_8 (all_text Samples.no_heading_page)
    = before ++ tspId Samples.fallback_result :: later /\
    (forall n, In n before -> is_valid_tsp_id_candidate n [] = false) /\
    is_valid_tsp_id_candidate (tspId Samples.fallback_result) [] = true.
Proof.
  apply (proj1 (fallback_first_accepted Samples.no_heading_page)
           Samples.fallback_result).
  vm_compute. reflexivity.
Defined.

Lemma select_in (candidates : list Candidate) (n : str) :
  select_best_candidate candidates = Some n ->
  exists c, In c candidates /\ number c = n.
Proof.
  destruct candidates as [|c1 r]; [discriminate|].
  destruct (select_member (c1 :: r) ltac:(discriminate)) as (c & Hin & E).
  rewrite E. intros E'. injection E' as <-. eauto.
Qed.

Lemma extract_from_header_section_in
  (text_dict : TextDict) (b : value * value) (n : str) :
  extract_from_header_section text_dict b = Some n ->
  exists candidates c,
    header_candidates text_dict b = Return candidates /\
    In c candidates /\ number c = n.
Proof.
  unfold extract_from_header_section.
  destruct (header_candidates text_dict b) as [candidates|e]; [|discriminate].
  cbv beta iota delta [bind catch].
  destruct candidates as [|c r]; [discriminate|].
  intros H. apply select_in in H. destruct H as (c' & Hin & E).
  exists (c :: r), c'. auto.
Qed.

Lemma header_candidates_harvest
  (text_dict : TextDict) (b : value * value) (candidates : list Candidate) :
  header_candidates text_dict b = Return candidates ->
  exists header_blocks, candidates = extract_tsp_id_candidates header_blocks.
Proof.
  unfold header_candidates.
  destruct (header_blocks_above (fst b) (get_blocks text_dict)) as [hs|e];
    [|discriminate].
  simpl. intros E. injection E as <-. eauto.
Qed.

Lemma confidence_position_based (tsp_id : str) :
  (calculate_confidence tsp_id (lit "position_based")
   == 0.98 + bonus_of (len tsp_id))%Q.
Proof.
  unfold calculate_confidence, bonus_of.
  change (PyStr.eqb (lit "position_based") (lit "position_based")) with true.
  cbv iota.
  destruct (len tsp_id =? 6);
    [|destruct (len tsp_id =? 7); [|destruct (len tsp_id =? 8)]];
    vm_compute; reflexivity.
Qed.

(** X9.  Whatever the PDF library does, a successful result of one
    extraction call carries an identifier of 6 to 8 digits that reads as at
    least 100000 and is not a date shape, reports page 1, and is labelled by
    the path that produced it: position based with accuracy 100% and
    confidence 0.98 plus the length bonus, or fallback with accuracy 85% and
    confidence 0.85. *)
Theorem successful_result
  (fitz : Library) (pdf_path : str) (st : Frame) (result : Success) :
  fst (Extractor.extract_tsp_id_from_pdf fitz pdf_path st) = Return (Found result) ->
  forallb is_digit (tspId result) = true /\
  6 <= len (tspId result) <= 8 /\
  (100000 <= digits_value (tspId result))%Z /\
  is_likely_date (tspId result) = false /\
  page result = 1 /\
  ((method result = lit "position_based_extraction" /\
    accuracy result = lit "100%" /\
    (confidence result == 0.98 + bonus_of (len (tspId result)))%Q) \/
   (method result = lit "fallback_extraction" /\
    accuracy result = lit "85%" /\
    confidence result = 0.85%Q)).
Proof.
  unfold Extractor.extract_tsp_id_from_pdf, try_finally, try_except,
    Extractor.extract_body, mbind, open, lift, ret, close_if_bound, close.
  destruct (fitz pdf_path) as [doc|e]; cbn [fst snd doc_bound];
    [|destruct (doc_bound st); discriminate].
  destruct (page_count doc =? 0); cbn [fst snd doc_bound]; [discriminate|].
  destruct (first_page_dict doc) as [text_dict|e]; cbn [fst snd doc_bound];
    [|discriminate].
  destruct (find_summary_boundary text_dict) as [b|] eqn:Eb;
    cbn [fst snd doc_bound].
  - destruct (extract_from_header_section text_dict b) as [tsp_id|] eqn:Eh;
      cbn [fst snd doc_bound]; [|discriminate].
    destruct (negb (len tsp_id =? 0)); cbn [fst snd doc_bound]; [|discriminate].
    intros E. injection E as <-. cbn [tspId page method accuracy confidence].
    apply extract_from_header_section_in in Eh.
    destruct Eh as (candidates & c & Ec & Hin & <-).
    apply header_candidates_harvest in Ec. destruct Ec as (hs & ->).
    unfold extract_tsp_id_candidates in Hin. apply in_flat_map in Hin.
    destruct Hin as (span & _ & Hin).
    apply span_candidate_invariant in Hin.
    destruct Hin as (Hd & Hl & Hv & Hdate & _).
    repeat (split; [assumption || reflexivity|]).
    left. split; [reflexivity|]. split; [reflexivity|].
    apply confidence_position_based.
  - intros E. injection E as E.
    pose proof (fallback_success text_dict result E) as (Hc & Hm & Hin & Hv).
    apply findall_6_8_in in Hin. destruct Hin as (Hd & Hl & _).
    apply valid_rules in Hv. destruct Hv as (_ & (v & Ev & Hlow) & Hdate & _).
    rewrite (digit_value_of_int (tspId result) v Hd ltac:(lia) Ev) in Hlow.
    assert (Hshape : page result = 1 /\ accuracy result = lit "85%").
    { revert E. unfold fallback_extraction.
      destruct (filter _ _); [discriminate|].
      intros E. injection E as <-. split; reflexivity. }
    destruct Hshape as [Hp Ha].
    repeat (split; [assumption|]).
    right. auto.
Qed.

Lemma successful_result_witness :
  forallb is_digit (tspId Samples.fallback_result) = true /\
  6 <= len (tspId Samples.fallback_result) <= 8 /\
  (100000 <= digits_value (tspId Samples.fallback_result))%Z /\
  is_likely_date (tspId Samples.fallback_result) = false /\
  page Samples.fallback_result = 1 /\
  ((method Samples.fallback_result = lit "position_based_extraction" /\
    accuracy Samples.fallback_result = lit "100%" /\
    (confidence Samples.fallback_result
     == 0.98 + bonus_of (len (tspId Samples.fallback_result)))%Q) \/
   (method Samples.fallback_result = lit "fallback_extraction" /\
    accuracy Samples.fallback_result = lit "85%" /\
    confidence Samples.fallback_result = 0.85%Q)).
Proof.
  apply (successful_result
           (Samples.one_page_pdf Samples.no_heading_page (lit "TSP 164082"))
           (lit "invoice.pdf") entry Samples.fallback_result).
  vm_compute. reflexivity.
Defined.

(** ** The document handle and the exit status *)

Lemma extract_balanced (fitz : Library) (pdf_path : str) (n : nat) :
  open_handles (snd (Extractor.extract_tsp_id_from_pdf fitz pdf_path (entered n)))
  = n.
Proof.
  unfold Extractor.extract_tsp_id_from_pdf, try_finally, try_except,
    Extractor.extract_body, mbind, open, lift, ret, close_if_bound, close, entered.
  destruct (fitz pdf_path) as [doc|e]; simpl; [|reflexivity].
  destruct (page_count doc =? 0); simpl; [reflexivity|].
  destruct (first_page_dict doc) as [text_dict|e]; simpl; [|reflexivity].
  destruct (find_summary_boundary text_dict) as [b|]; simpl; [|reflexivity].
  destruct (extract_from_header_section text_dict b) as [tsp_id|]; simpl;
    [|reflexivity].
  destruct (negb (len tsp_id =? 0)); reflexivity.
Qed.

(** X10.  One extraction call of the layout-boundary extractor, and [main]
    around it, leave as many document handles open as they found, whatever
    the library does and whatever the result: the handle opened by the call
    is closed by its [finally] clause. *)
Theorem handles_balanced (argv : list str) (fitz : Library) (pdf_path : str) (n : nat) :
  open_handles (snd (Extractor.extract_tsp_id_from_pdf fitz pdf_path (entered n)))
  = n /\
  open_handles (snd (Cli.main argv fitz (entered n))) = n.
Proof.
  split; [apply extract_balanced|].
  unfold Cli.main. destruct (List.length argv <? 2); [reflexivity|].
  unfold try_except, mbind, ret.
  pose proof (extract_balanced fitz (nth 1 argv []) n) as Hb.
  destruct (extract_returns fitz (nth 1 argv []) (entered n))
    as (result & st' & E).
  rewrite E in *. exact Hb.
Qed.

(** X11.  [main] of the layout-boundary program prints one record.  Without a
    path argument it prints ["PDF path not provided"] and exits with status
    1.  With a path it prints the result of the extraction call and exits
    with status 0, also when that result is an error record: the handler
    that exits with status 1 is never reached, since the call does not
    raise. *)
Theorem cli_exit_status (argv : list str) (fitz : Library) (st : Frame) :
  (List.length argv < 2 ->
   fst (Cli.main argv fitz st) = Return (Error (lit "PDF path not provided"), 1)) /\
  (2 <= List.length argv ->
   exists result,
     fst (Extractor.extract_tsp_id_from_pdf fitz (nth 1 argv []) st)
     = Return result /\
     fst (Cli.main argv fitz st) = Return (result, 0)).
Proof.
  unfold Cli.main. split; intros H.
  - apply Nat.ltb_lt in H. now rewrite H.
  - apply Nat.ltb_ge in H. rewrite H.
    destruct (extract_returns fitz (nth 1 argv []) st) as (result & st' & E).
    exists result. unfold try_except, mbind, ret. rewrite E. auto.
Qed.

Lemma cli_exit_status_witness :
  fst (Cli.main [lit "pdf_processor.py"] Samples.no_such_file entry)
  = Return (Error (lit "PDF path not provided"), 1) /\
  exists result,
    fst (Extractor.extract_tsp_id_from_pdf Samples.no_such_file
           (nth 1 [lit "pdf_processor.py"; lit "missing.pdf"] []) entry)
    = Return result /\
    fst (Cli.main [lit "pdf_processor.py"; lit "missing.pdf"]
           Samples.no_such_file entry)
    = Return (result, 0).
Proof.
  split.
  - apply (proj1 (cli_exit_status [lit "pdf_processor.py"]
                    Samples.no_such_file entry)).
    simpl. lia.
  - apply (proj2 (cli_exit_status [lit "pdf_processor.py"; lit "missing.pdf"]
                    Samples.no_such_file entry)).
    simpl. lia.
Defined.

(** ** The first-match program *)

Lemma smart_result_shape (page_text t : str) :
  Pypdf2.extract_tsp_id_smart page_text = Some t ->
  len t = 6 /\ forallb is_digit t = true /\ In t (words page_text).
Proof.
  rewrite extract_tsp_id_smart_words. intros H. apply find_some in H.
  destruct H as [Hin H6]. apply Nat.eqb_eq in H6.
  unfold digit_words in Hin. apply filter_In in Hin. destruct Hin as [Hw Hd].
  auto.
Qed.

Lemma process_pdf_envelope (fitz : Library) (pdf_path : str) (st : Frame) :
  exists r st',
    Pypdf2.process_pdf fitz pdf_path st = (Return r, st') /\
    ((Pypdf2.success r = true /\ Pypdf2.error r = None /\
      Pypdf2.confidence (Pypdf2.results r) = 1.0%Q /\
      exists t, Pypdf2.tspId (Pypdf2.results r) = Some t /\
                len t = 6 /\ forallb is_digit t = true) \/
     (Pypdf2.success r = false /\ (exists m, Pypdf2.error r = Some m) /\
      Pypdf2.confidence (Pypdf2.results r) = 0.0%Q /\
      Pypdf2.tspId (Pypdf2.results r) = None /\
      Pypdf2.extractedText (Pypdf2.results r) = [])).
Proof.
  unfold Pypdf2.process_pdf, try_except, mbind, open, lift, ret, close,
    Pypdf2.failure.
  destruct (fitz pdf_path) as [doc|e]; cbn [fst snd].
  - destruct (page_count doc =? 0); cbn [fst snd].
    + do 2 eexists. split; [reflexivity|]. right. cbn. eauto 10.
    + destruct (first_page_text doc) as [page_text|e]; cbn [fst snd].
      * destruct page_text as [|c s].
        -- do 2 eexists. split; [reflexivity|]. right. cbn. eauto 10.
        -- destruct (Pypdf2.extract_tsp_id_smart (c :: s)) as [t|] eqn:Et.
           ++ do 2 eexists. split; [reflexivity|]. left. cbn.
              apply smart_result_shape in Et. destruct Et as (H6 & Hd & _).
              eauto 10.
           ++ do 2 eexists. split; [reflexivity|]. right. cbn. eauto 10.
      * do 2 eexists. split; [reflexivity|]. right. cbn. eauto 10.
  - do 2 eexists. split; [reflexivity|]. right. cbn. eauto 10.
Qed.

(** X12.  Whatever its arguments, the file system and the PDF library do,
    [main] of the first-match program prints one response, and the response
    is either a success with no error, confidence 1.0 and an identifier of
    exactly 6 digits, or a failure with an error message, confidence 0.0,
    no identifier and no extracted text.  The response comes from the final
    handler only when [Path(pdf_path).exists()] or [import fitz] raised
    something the inner code does not catch, and then no document was
    opened. *)
Theorem smart_main_envelope (env : Pypdf2Main.Env) (st : Frame) :
  exists p st',
    Pypdf2Main.main env st = (Return p, st') /\
    ((Pypdf2.success (Pypdf2Main.response_of p) = true /\
      Pypdf2.error (Pypdf2Main.response_of p) = None /\
      Pypdf2.confidence (Pypdf2.results (Pypdf2Main.response_of p)) = 1.0%Q /\
      exists t, Pypdf2.tspId (Pypdf2.results (Pypdf2Main.response_of p)) = Some t /\
                len t = 6 /\ forallb is_digit t = true) \/
     (Pypdf2.success (Pypdf2Main.response_of p) = false /\
      (exists m, Pypdf2.error (Pypdf2Main.response_of p) = Some m) /\
      Pypdf2.confidence (Pypdf2.results (Pypdf2Main.response_of p)) = 0.0%Q /\
      Pypdf2.tspId (Pypdf2.results (Pypdf2Main.response_of p)) = None /\
      Pypdf2.extractedText (Pypdf2.results (Pypdf2Main.response_of p)) = [])) /\
    (forall r details,
        p = Pypdf2Main.Unexpected r details ->
        st' = st /\
        (Pypdf2Main.path_exists env (nth 1 (Pypdf2Main.argv env) []) = Raise details \/
         Pypdf2Main.import_fitz env = Pypdf2Main.ImportRaised details)).
Proof.
  unfold Pypdf2Main.main, try_except, mbind, ret, lift,
    Pypdf2Main.failure_described.
  destruct (negb (List.length (Pypdf2Main.argv env) =? 2)).
  { do 2 eexists. split; [reflexivity|]. split; [right; cbn; eauto 10|].
    intros r d E. discriminate. }
  destruct (Pypdf2Main.path_exists env (nth 1 (Pypdf2Main.argv env) []))
    as [found|e] eqn:Ep.
  - destruct (negb found).
    { do 2 eexists. split; [reflexivity|]. split; [right; cbn; eauto 10|].
      intros r d E. discriminate. }
    destruct (Pypdf2Main.import_fitz env) as [fitz|e|e] eqn:Ei.
    + destruct (process_pdf_envelope fitz (nth 1 (Pypdf2Main.argv env) []) st)
        as (r & st' & E & H).
      exists (Pypdf2Main.Output r), st'. rewrite E.
      split; [reflexivity|]. split; [exact H|]. intros r' d E'. discriminate.
    + do 2 eexists. split; [reflexivity|]. split; [right; cbn; eauto 10|].
      intros r d E. discriminate.
    + do 2 eexists. split; [reflexivity|]. split; [right; cbn; eauto 10|].
      intros r d E. injection E as _ <-. auto.
  - do 2 eexists. split; [reflexivity|]. split; [right; cbn; eauto 10|].
    intros r d E. injection E as _ <-. auto.
Qed.

(** X13.  The first-match program opens no document unless it was given
    exactly one argument, the path exists and the PDF library could be
    imported: in each of the three refusals the state is left as it was. *)
Theorem smart_main_opens_late (env : Pypdf2Main.Env) (st : Frame) :
  List.length (Pypdf2Main.argv env) <> 2 \/
  Pypdf2Main.path_exists env (nth 1 (Pypdf2Main.argv env) []) = Return false \/
  (Pypdf2Main.path_exists env (nth 1 (Pypdf2Main.argv env) []) = Return true /\
   exists e, Pypdf2Main.import_fitz env = Pypdf2Main.ImportError e) ->
  snd (Pypdf2Main.main env st) = st /\
  exists r, fst (Pypdf2Main.main env st) = Return (Pypdf2Main.Output r) /\
            Pypdf2.success r = false /\
            Pypdf2.method (Pypdf2.results r) = lit "error".
Proof.
  unfold Pypdf2Main.main, try_except, mbind, ret, lift,
    Pypdf2Main.failure_described.
  intros H.
  destruct (List.length (Pypdf2Main.argv env) =? 2) eqn:Ea; cbn [negb];
    [|cbn; eauto].
  apply Nat.eqb_eq in Ea.
  destruct H as [H | [H | [H [e He]]]]; [congruence | |]; rewrite H.
  - cbn. eauto.
  - rewrite He. cbn. eauto.
Qed.

Lemma smart_main_opens_late_witness :
  snd (Pypdf2Main.main
         {| Pypdf2Main.argv := [lit "pdf_processor_pypdf2.py"];
            Pypdf2Main.path_exists := fun _ => Return true;
            Pypdf2Main.import_fitz := Pypdf2Main.Imported Samples.zero_page_pdf |}
         entry)
  = entry.
Proof.
  apply (smart_main_opens_late
           {| Pypdf2Main.argv := [lit "pdf_processor_pypdf2.py"];
              Pypdf2Main.path_exists := fun _ => Return true;
              Pypdf2Main.import_fitz := Pypdf2Main.Imported Samples.zero_page_pdf |}
           entry).
  left. simpl. discriminate.
Defined.

(** A name that the file system refuses reaches the final handler. *)
Example smart_main_final_handler :
  fst (Pypdf2Main.main
         {| Pypdf2Main.argv := [lit "pdf_processor_pypdf2.py"; lit "name.pdf"];
            Pypdf2Main.path_exists := fun _ => Raise (lit "File name too long");
            Pypdf2Main.import_fitz := Pypdf2Main.Imported Samples.zero_page_pdf |}
         entry)
  = Return (Pypdf2Main.Unexpected
              (Pypdf2Main.failure_described
                 (lit "Unexpected error: File name too long")
                 (lit "Unexpected error: File name too long"))
              (lit "File name too long")).
Proof. reflexivity. Qed.

Lemma hd_error_filter (A : Type) (f : A -> bool) (l : list A) :
  hd_error (filter f l) = find f l.
Proof.
  induction l as [|x l IH]; [reflexivity|]. simpl.
  destruct (f x); [reflexivity | exact IH].
Qed.

Lemma find_filter (A : Type) (f g : A -> bool) (l : list A) :
  find f (filter g l) = find (fun x => g x && f x) l.
Proof. rewrite <- !hd_error_filter. now rewrite filter_filter. Qed.

(** X14.  The extraction of [working_pdf_processor.py], the first match of
    [\b\d{6}\b], and the smart extraction of [pdf_processor_pypdf2.py], the
    first 6-digit match of [\b(\d+)\b], return the same identifier on every
    page text. *)
Theorem simple_regex_is_smart (page_text : str) :
  Working.simple_regex page_text = Pypdf2.extract_tsp_id_smart page_text.
Proof.
  unfold Working.simple_regex.
  rewrite (findall_pieces 6 (Some 6)) by lia.
  rewrite hd_error_filter, extract_tsp_id_smart_words.
  unfold digit_words, words. rewrite !find_filter.
  apply find_ext_in. intros w _. unfold harvested, nonempty, within.
  destruct (forallb is_digit w); cbn [andb];
    [|now rewrite andb_false_r].
  destruct (6 <=? len w) eqn:E1; destruct (len w <=? 6) eqn:E2;
    destruct (len w =? 0) eqn:E0; destruct (len w =? 6) eqn:E6;
    cbn [andb negb]; try reflexivity; exfalso;
    repeat match goal with
      | H : (_ <=? _) = true |- _ => apply Nat.leb_le in H
      | H : (_ <=? _) = false |- _ => apply Nat.leb_gt in H
      | H : (_ =? _) = true |- _ => apply Nat.eqb_eq in H
      | H : (_ =? _) = false |- _ => apply Nat.eqb_neq in H
      end; lia.
Qed.

(** ** Malformed boxes and image blocks *)

Lemma boundary_of_short (bbox : BBox) :
  List.length bbox < 4 -> catch (boundary_of bbox) None = None.
Proof.
  intros H. unfold boundary_of, index.
  assert (E : nth_error bbox 3 = None) by (apply nth_error_None; lia).
  rewrite E. destruct (nth_error bbox 1); reflexivity.
Qed.

(** X15.  When the first span that carries the heading has a box of fewer
    than four entries, the locator reports that no boundary was found, also
    when a later span carries the heading with a well-formed box; the
    extraction then takes the fallback path. *)
Theorem locator_malformed_box
  (text_dict : TextDict) (before : list Span) (span : Span) (after : list Span) :
  document_spans (get_blocks text_dict) = before ++ span :: after ->
  (forall s, In s before ->
     contains partial_heading (strip (span_text s)) = false) ->
  contains partial_heading (strip (span_text span)) = true ->
  List.length (span_bbox span) < 4 ->
  find_summary_boundary text_dict = None.
Proof.
  intros E Hb Hs Hl. unfold find_summary_boundary. rewrite E.
  rewrite (find_in_spans_first before span after Hb Hs).
  now apply boundary_of_short.
Qed.

Lemma locator_malformed_box_witness :
  find_summary_boundary
    (Samples.layout
       [ Samples.text_block (Samples.box 72 100 300 112)
           [ [ {| span_text := lit "Summary of VIDAPAY Charges and Payments";
                  span_bbox := [Num 72; Num 100] |} ];
             [ {| span_text := lit "Summary of VIDAPAY Charges and Payments";
                  span_bbox := Samples.box 72 300 400 314 |} ] ] ])
  = None.
Proof.
  apply (locator_malformed_box _ []
           {| span_text := lit "Summary of VIDAPAY Charges and Payments";
              span_bbox := [Num 72; Num 100] |}
           [ {| span_text := lit "Summary of VIDAPAY Charges and Payments";
                span_bbox := Samples.box 72 300 400 314 |} ]).
  - reflexivity.
  - intros s [].
  - vm_compute. reflexivity.
  - simpl. lia.
Defined.

Lemma header_blocks_above_raises (summary_y : value) (bs : list Block) (block : Block) :
  In block bs -> has_lines block = true ->
  top_edge (block_bbox block) = None ->
  exists e, header_blocks_above summary_y bs = Raise e.
Proof.
  intros Hin Hl Ht. induction bs as [|x bs IH]; [destruct Hin|].
  cbn [header_blocks_above].
  destruct Hin as [<- | Hin].
  - unfold has_lines in Hl. destruct (block_lines x); [|discriminate].
    unfold top_edge in Ht. unfold index.
    destruct (nth_error (block_bbox x) 1) as [[q|]|]; [discriminate | |];
      cbn; eauto.
  - destruct (IH Hin) as (e & E). rewrite E.
    destruct (block_lines x); [|eauto].
    destruct (index (block_bbox x) 1) as [v|e1]; cbn; [|eauto].
    destruct (lt v summary_y); cbn; eauto.
Qed.

(** X16.  One text block whose box has no numeric top edge (fewer than two
    entries, or a second entry that is not a number) makes the header
    extraction return nothing, wherever the block stands on the page and
    whatever the other blocks hold. *)
Theorem malformed_block_aborts
  (text_dict : TextDict) (summary_boundary : value * value) (block : Block) :
  In block (get_blocks text_dict) -> has_lines block = true ->
  top_edge (block_bbox block) = None ->
  extract_from_header_section text_dict summary_boundary = None.
Proof.
  intros Hin Hl Ht. unfold extract_from_header_section, header_candidates.
  destruct (header_blocks_above_raises (fst summary_boundary)
              (get_blocks text_dict) block Hin Hl Ht) as (e & E).
  rewrite E. reflexivity.
Qed.

Lemma malformed_block_aborts_witness :
  extract_from_header_section
    (Samples.layout
       [ Samples.text_block (Samples.box 50 50 120 62)
           [ [ {| span_text := lit "TSP 164082";
                  span_bbox := Samples.box 50 50 120 62 |} ] ];
         Samples.text_block [Num 72]
           [ [ {| span_text := lit "page 1";
                  span_bbox := Samples.box 72 700 120 712 |} ] ] ])
    (Num 300, Num 314)
  = None.
Proof.
  apply (malformed_block_aborts _ _
           (Samples.text_block [Num 72]
              [ [ {| span_text := lit "page 1";
                     span_bbox := Samples.box 72 700 120 712 |} ] ])).
  - right. left. reflexivity.
  - reflexivity.
  - reflexivity.
Defined.

Lemma document_spans_text_only (bs : list Block) :
  document_spans (filter has_lines bs) = document_spans bs.
Proof.
  unfold document_spans. induction bs as [|x bs IH]; [reflexivity|].
  cbn [filter flat_map]. unfold has_lines at 1, block_spans at 2.
  destruct (block_lines x) eqn:E.
  - cbn [flat_map]. unfold block_spans at 1. rewrite E. now rewrite IH.
  - exact IH.
Qed.

Lemma header_blocks_text_only (summary_y : value) (bs : list Block) :
  header_blocks_above summary_y (filter has_lines bs)
  = header_blocks_above summary_y bs.
Proof.
  induction bs as [|x bs IH]; [reflexivity|].
  cbn [filter header_blocks_above]. unfold has_lines at 1.
  destruct (block_lines x) eqn:E; [|exact IH].
  cbn [header_blocks_above]. rewrite E, IH. reflexivity.
Qed.

(** X17.  Blocks without lines (image blocks) are never looked at: removing
    them from the page changes neither the boundary found, nor the result
    of the header extraction, nor the result of the fallback; in particular
    a malformed box on an image block is harmless. *)
Theorem image_blocks_ignored (text_dict : TextDict) :
  find_summary_boundary (text_blocks_only text_dict)
  = find_summary_boundary text_dict /\
  (forall b, extract_from_header_section (text_blocks_only text_dict) b
             = extract_from_header_section text_dict b) /\
  fallback_extraction (text_blocks_only text_dict)
  = fallback_extraction text_dict.
Proof.
  split; [|split].
  - unfold find_summary_boundary, text_blocks_only. cbn [get_blocks blocks].
    now rewrite document_spans_text_only.
  - intros b. unfold extract_from_header_section, header_candidates,
      text_blocks_only. cbn [get_blocks blocks].
    now rewrite header_blocks_text_only.
  - unfold fallback_extraction, all_text, text_blocks_only.
    cbn [get_blocks blocks]. now rewrite document_spans_text_only.
Qed.



(** ** The order of the header blocks *)

Lemma insert_perm (A : Type) (key : A -> Q) (reverse : bool) (x : A) (l : list A) :
  Permutation (x :: l) (insert key reverse x l).
Proof.
  induction l as [|y l IH]; simpl; [apply Permutation_refl|].
  destruct (precedes key reverse x y); [apply Permutation_refl|].
  eapply perm_trans; [apply perm_swap|]. now apply perm_skip.
Qed.

Lemma sort_perm (A : Type) (key : A -> Q) (reverse : bool) (l : list A) :
  Permutation l (sort key reverse l).
Proof.
  induction l as [|x l IH]; simpl; [apply perm_nil|].
  eapply perm_trans; [apply perm_skip, IH | apply insert_perm].
Qed.

Lemma insert_ascending (A : Type) (key : A -> Q) (x : A) (l : list A) :
  StronglySorted (fun a b => (key a <= key b)%Q) l ->
  StronglySorted (fun a b => (key a <= key b)%Q) (insert key false x l).
Proof.
  induction l as [|y l IH]; intros Hs; simpl.
  - constructor; constructor.
  - inversion Hs as [|? ? Hs' Hall]; subst.
    unfold precedes. destruct (Qle_bool (key x) (key y)) eqn:E.
    + apply Qle_bool_iff in E. constructor; [exact Hs|].
      constructor; [exact E|].
      eapply Forall_impl; [|exact Hall].
      intros a Ha. eapply Qle_trans; [exact E | exact Ha].
    + assert (Hyx : (key y <= key x)%Q).
      { apply Qlt_le_weak, Qnot_le_lt. intros H.
        apply Qle_bool_iff in H. congruence. }
      constructor; [now apply IH|].
      apply Forall_forall. intros a Ha. apply insert_in in Ha.
      destruct Ha as [-> | Ha]; [exact Hyx|].
      rewrite Forall_forall in Hall. now apply Hall.
Qed.

Lemma sort_ascending (A : Type) (key : A -> Q) (l : list A) :
  StronglySorted (fun a b => (key a <= key b)%Q) (sort key false l).
Proof.
  induction l as [|x l IH]; simpl; [constructor|].
  now apply insert_ascending.
Qed.

(** X19.  The header extraction harvests from the retained blocks in the
    order of their top edges, not in document order: the candidates are the
    harvest of a rearrangement of the retained blocks in which no block
    stands before one with a smaller top edge. *)
Theorem header_blocks_top_to_bottom
  (text_dict : TextDict) (summary_boundary : value * value)
  (candidates : list Candidate) :
  header_candidates text_dict summary_boundary = Return candidates ->
  exists retained ordered,
    header_blocks_above (fst summary_boundary) (get_blocks text_dict)
    = Return retained /\
    Permutation retained ordered /\
    StronglySorted (fun a b => (block_top a <= block_top b)%Q) ordered /\
    candidates = extract_tsp_id_candidates ordered.
Proof.
  unfold header_candidates.
  destruct (header_blocks_above (fst summary_boundary) (get_blocks text_dict))
    as [hs|e]; [|discriminate].
  cbv beta iota delta [bind]. intros E. injection E as <-.
  exists hs, (sort block_top false hs).
  split; [reflexivity|]. split; [apply sort_perm|].
  split; [apply sort_ascending | reflexivity].
Qed.

Lemma header_blocks_top_to_bottom_witness :
  exists retained ordered,
    header_blocks_above (fst (Num 300, Num 314)) (get_blocks Samples.invoice_page)
    = Return retained /\
    Permutation retained ordered /\
    StronglySorted (fun a b => (block_top a <= block_top b)%Q) ordered /\
    extract_tsp_id_candidates
      [ Samples.text_block (Samples.box 50 50 120 62)
          [ [ {| span_text := lit "TSP 164082";
                 span_bbox := Samples.box 50 50 120 62 |} ] ] ]
    = extract_tsp_id_candidates ordered.
Proof.
  apply (header_blocks_top_to_bottom Samples.invoice_page (Num 300, Num 314)).
  vm_compute. reflexivity.
Defined.

(** X20.  Once the heading is found the fallback is never used: the call
    returns either a position-based success or the error
    ["No TSP ID found in header section"], whatever the fallback would have
    found on the page. *)
Theorem heading_found_no_fallback
  (fitz : Library) (pdf_path : str) (doc : Document) (text_dict : TextDict)
  (b : value * value) (st : Frame) :
  fitz pdf_path = Return doc ->
  page_count doc <> 0 ->
  first_page_dict doc = Return text_dict ->
  find_summary_boundary text_dict = Some b ->
  (exists result,
      fst (Extractor.extract_tsp_id_from_pdf fitz pdf_path st)
      = Return (Found result) /\
      method result = lit "position_based_extraction" /\
      extract_from_header_section text_dict b = Some (tspId result)) \/
  (fst (Extractor.extract_tsp_id_from_pdf fitz pdf_path st)
   = Return (Error (lit "No TSP ID found in header section")) /\
   extract_from_header_section text_dict b = None).
Proof.
  intros Eo Hp Ed Eb. apply Nat.eqb_neq in Hp.
  unfold Extractor.extract_tsp_id_from_pdf, try_finally, try_except,
    Extractor.extract_body, mbind, open, lift, ret, close_if_bound, close.
  rewrite Eo, Hp, Ed, Eb. cbn [fst snd doc_bound].
  destruct (extract_from_header_section text_dict b) as [tsp_id|] eqn:Eh;
    cbn [fst snd doc_bound]; [|right; auto].
  destruct (len tsp_id =? 0) eqn:El; cbn [negb fst snd doc_bound].
  - exfalso. apply Nat.eqb_eq in El.
    apply extract_from_header_section_in in Eh.
    destruct Eh as (candidates & c & Ec & Hin & <-).
    apply header_candidates_harvest in Ec. destruct Ec as (hs & ->).
    unfold extract_tsp_id_candidates in Hin. apply in_flat_map in Hin.
    destruct Hin as (span & _ & Hin).
    apply span_candidate_invariant in Hin. destruct Hin as (_ & Hl & _). lia.
  - left. eexists. split; [reflexivity|]. split; reflexivity.
Qed.

Lemma heading_found_no_fallback_witness :
  (exists result,
      fst (Extractor.extract_tsp_id_from_pdf
             (Samples.one_page_pdf Samples.invoice_page (lit "TSP 164082"))
             (lit "invoice.pdf") entry)
      = Return (Found result) /\
      method result = lit "position_based_extraction" /\
      extract_from_header_section Samples.invoice_page (Num 300, Num 314)
      = Some (tspId result)) \/
  (fst (Extractor.extract_tsp_id_from_pdf
          (Samples.one_page_pdf Samples.invoice_page (lit "TSP 164082"))
          (lit "invoice.pdf") entry)
   = Return (Error (lit "No TSP ID found in header section")) /\
   extract_from_header_section Samples.invoice_page (Num 300, Num 314) = None).
Proof.
  apply (heading_found_no_fallback
           (Samples.one_page_pdf Samples.invoice_page (lit "TSP 164082"))
           (lit "invoice.pdf")
           {| page_count := 1;
              first_page_dict := Return Samples.invoice_page;
              first_page_text := Return (lit "TSP 164082") |}
           Samples.invoice_page (Num 300, Num 314) entry).
  - reflexivity.
  - simpl. discriminate.
  - reflexivity.
  - vm_compute. reflexivity.
Defined.

(** ** Worked examples on Latin-1 text *)

(** An accented letter, an ordinal indicator or a superscript next to a
    digit run makes the run part of a longer word, which is not harvested. *)
Example harvest_after_accented_letter :
  Regex.findall_6_8 (lit "caf" ++ [ascii_of_nat 233] ++ lit "164082 700123")
  = [lit "700123"].
Proof. vm_compute. reflexivity. Qed.

Example smart_after_ordinal_indicator :
  Pypdf2.extract_tsp_id_smart
    (lit "N" ++ [ascii_of_nat 186] ++ lit "164082 700123")
  = Some (lit "700123").
Proof. vm_compute. reflexivity. Qed.

Example smart_phrase_then_accented_letter :
  Pypdf2.extract_tsp_id_smart (phrase ++ [ascii_of_nat 233]) = None.
Proof. vm_compute. reflexivity. Qed.

(** [strip] removes the separator FS and the no-break space; [int] accepts
    the no-break space around a number but not the separator. *)
Example strip_and_int_spaces :
  strip (ascii_of_nat 28 :: lit "164082" ++ [ascii_of_nat 160]) = lit "164082" /\
  PyStr.int (ascii_of_nat 160 :: lit "164082") = Some 164082%Z /\
  PyStr.int (ascii_of_nat 28 :: lit "164082") = None.
Proof. repeat split; vm_compute; reflexivity. Qed.
